(** * Flockers with infection: the model container of [src/model.py]

    A shallow embedding of [BoidFlockers] (agent creation, placement,
    scheduling, the per-status tally and the two drawing methods) together
    with the parts of Mesa and of the [Boid] agent it drives.

    Conventions.
    - Python [int] is [Z]; Python [float] is [Q] (exact rationals: rounding
      is not modelled).  A coordinate that numpy may turn into [nan]
      (a remainder by zero) is an [option Q], [None] standing for [nan].
    - A raised exception is the [Raise] branch of [result].
    - A pseudo-random generator is an indexed sequence of raw 53-bit words
      with a cursor; [random()] reads one word [k] and returns [k / 2^53]. *)

From stdpp Require Import gmap strings list fin_maps.
From Stdlib Require Import ZArith QArith Qround Qabs Qminmax Lia DecimalString.

Open Scope Z_scope.

(** ** Exceptions *)

Inductive exn : Type :=
  | DuplicateAgent (unique_id : Z)   (* mesa.time: agent already added *)
  | OutOfBounds                      (* mesa.space: point outside a non-toroidal space *)
  | KeyError (key : string).         (* dict subscript on a missing key *)

Inductive result (A : Type) : Type :=
  | Ok (a : A)
  | Raise (e : exn).
Arguments Ok {A} a.
Arguments Raise {A} e.

Definition bind {A B : Type} (m : result A) (f : A -> result B) : result B :=
  match m with
  | Ok a => f a
  | Raise e => Raise e
  end.

Notation "'do' x <- m ; f" := (bind m (fun x => f))
  (at level 10, x pattern, m at level 100, f at level 200).

(** Running a fallible loop body over the values of an iterable, in order. *)
Fixpoint for_each {A S : Type} (body : A -> S -> result S) (l : list A) (s : S)
  : result S :=
  match l with
  | [] => Ok s
  | x :: l' => do s' <- body x s; for_each body l' s'
  end.

(** ** Pseudo-random generators *)

Module Random.
(** The state of a [random.Random] instance: the words its seed
    determines and how many were consumed. *)
Record t : Type := mk { draws : nat -> N; cursor : nat }.

Definition word (g : t) : N := (draws g (cursor g) mod 2 ^ 53)%N.
Definition next (g : t) : t := mk (draws g) (S (cursor g)).

(** [random()]: a float in [0.0, 1.0). *)
Definition random (g : t) : Q * t :=
  (Z.of_N (word g) # 2 ^ 53, next g).

(** [_randbelow(n)] for [n > 0]. *)
Definition randbelow (n : nat) (g : t) : nat * t :=
  (N.to_nat (word g mod N.of_nat n), next g).

(** [x[i], x[j] = x[j], x[i]] *)
Definition swap {A : Type} (i j : nat) (x : list A) : list A :=
  match x !! i, x !! j with
  | Some a, Some b => <[j := a]> (<[i := b]> x)
  | _, _ => x
  end.

(** [shuffle(x)]: [for i in reversed(range(1, len(x)))], [i] running
    from [len(x) - 1] down to [1]. *)
Fixpoint shuffle_from {A : Type} (i : nat) (x : list A) (g : t) : list A * t :=
  match i with
  | O => (x, g)
  | S i' =>
      let '(j, g') := randbelow (S i) g in
      shuffle_from i' (swap i j x) g'
  end.

Definition shuffle {A : Type} (x : list A) (g : t) : list A * t :=
  shuffle_from (length x - 1) x g.
End Random.

(** numpy's global generator, [np.random]: a state of its own, shared by
    the whole process and not owned by any model. *)
Module np_random.
Record t : Type := mk { draws : nat -> N; cursor : nat }.

Definition word (g : t) : N := (draws g (cursor g) mod 2 ^ 53)%N.
Definition next (g : t) : t := mk (draws g) (S (cursor g)).

Definition random_sample (g : t) : Q * t :=
  (Z.of_N (word g) # 2 ^ 53, next g).

(** [np.random.random(2)]: an array of two samples. *)
Definition random2 (g : t) : (Q * Q) * t :=
  let '(a, g1) := random_sample g in
  let '(b, g2) := random_sample g1 in
  ((a, b), g2).
End np_random.

(** ** Vectors and positions *)

Definition Vec : Type := (Q * Q)%type.

(** A coordinate stored by the space; [None] is numpy's [nan]. *)
Definition coord : Type := option Q.
Definition Pos : Type := (coord * coord)%type.

(** ** The agent *)

Module Boid.
(** Modelled from the spec: [boid.py] (class [Boid]) is not part of the
    sources; the record has one field per constructor argument passed by
    [make_agents], in the order of the call ([model] apart), which is the
    data model of the spec: identity, position, speed, velocity, radii,
    status, tick counter, rates and steering weights.  The constructor
    stores its arguments. *)
Record t : Type := mk {
  unique_id : Z;
  pos : Pos;
  speed : Q;
  velocity : Vec;
  vision : Q;
  separation : Q;
  status : string;
  counter : Z;
  motality : Q;
  infection_rate : Q;
  cohere : Q;
  separate : Q;
  match_ : Q
}.

Definition set_pos (p : Pos) (b : t) : t :=
  mk (unique_id b) p (speed b) (velocity b) (vision b) (separation b)
     (status b) (counter b) (motality b) (infection_rate b)
     (cohere b) (separate b) (match_ b).

Definition set_velocity (v : Vec) (b : t) : t :=
  mk (unique_id b) (pos b) (speed b) v (vision b) (separation b)
     (status b) (counter b) (motality b) (infection_rate b)
     (cohere b) (separate b) (match_ b).

Definition set_status (s : string) (b : t) : t :=
  mk (unique_id b) (pos b) (speed b) (velocity b) (vision b) (separation b)
     s (counter b) (motality b) (infection_rate b)
     (cohere b) (separate b) (match_ b).
End Boid.

(** ** mesa.space.ContinuousSpace *)

Module ContinuousSpace.
(** [ContinuousSpace(x_max, y_max, torus)], with [x_min = y_min = 0]. *)
Record t : Type := mk { x_max : Q; y_max : Q; torus : bool }.

(** Python's float remainder [a % b]: the sign follows the divisor;
    numpy gives [nan] for [b = 0]. *)
Definition fmod (a b : Q) : coord :=
  if Qeq_bool b 0 then None
  else Some (a - b * inject_Z (Qfloor (a / b)))%Q.

Definition out_of_bounds (sp : t) (p : Vec) : bool :=
  let '(x, y) := p in
  negb (Qle_bool 0 x) || Qle_bool (x_max sp) x
  || negb (Qle_bool 0 y) || Qle_bool (y_max sp) y.

(** [torus_adj(pos)]; the space of the model is always toroidal, the
    other branch (an exception) is kept for a non-toroidal one. *)
Definition torus_adj (sp : t) (p : Vec) : result Pos :=
  if negb (out_of_bounds sp p) then Ok (Some (fst p), Some (snd p))
  else if negb (torus sp) then Raise OutOfBounds
  else Ok (fmod (fst p) (x_max sp), fmod (snd p) (y_max sp)).

(** [place_agent(agent, pos)]: the agent's position becomes the adjusted
    point. *)
Definition place_agent (sp : t) (b : Boid.t) (p : Vec) : result Boid.t :=
  do p' <- torus_adj sp p;
  Ok (Boid.set_pos p' b).
End ContinuousSpace.

(** ** Construction parameters *)

Record Params : Type := mkParams {
  population : Z;
  width : Q;
  height : Q;
  speed : Q;
  vision : Q;
  motality : Q;
  infection_rate : Q;
  separation : Q;
  cohere : Q;
  separate : Q;
  match_ : Q
}.

(** The defaults of [BoidFlockers.__init__]. *)
Definition default_params : Params :=
  {| population := 100;
     width := 100;
     height := 100;
     speed := 1;
     vision := 10;
     motality := 0.1;
     infection_rate := 0.3;
     separation := 2;
     cohere := 0.025;
     separate := 0.25;
     match_ := 0.04 |}.

(** ** mesa.time.RandomActivation: registration *)

Module RandomActivation.
(** The agents keyed by [unique_id], in insertion order, and the two
    counters of the scheduler. *)
Record t : Type := mk { agents : list Boid.t; steps : Z; time : Z }.

Definition empty : t := mk [] 0 0.

Definition has_key (k : Z) (l : list Boid.t) : bool :=
  existsb (fun a => Boid.unique_id a =? k) l.

(** [add(agent)]: refuses an id that is already registered. *)
Definition add (b : Boid.t) (s : t) : result t :=
  if has_key (Boid.unique_id b) (agents s)
  then Raise (DuplicateAgent (Boid.unique_id b))
  else Ok (mk (agents s ++ [b]) (steps s) (time s)).
End RandomActivation.

(** ** The model *)

Record BoidFlockers : Type := mkModel {
  args : Params;                       (* width, height, population, ..., factors *)
  status_num : gmap string (list Z);
  schedule : RandomActivation.t;
  space : ContinuousSpace.t;
  random : Random.t;                   (* [self.random], set from the seed *)
  running : bool
}.

Definition set_status_num (d : gmap string (list Z)) (self : BoidFlockers)
  : BoidFlockers :=
  mkModel (args self) d (schedule self) (space self) (random self) (running self).

Definition set_schedule (s : RandomActivation.t) (self : BoidFlockers)
  : BoidFlockers :=
  mkModel (args self) (status_num self) s (space self) (random self) (running self).

Definition set_random (g : Random.t) (self : BoidFlockers) : BoidFlockers :=
  mkModel (args self) (status_num self) (schedule self) (space self) g (running self).

Definition set_running (r : bool) (self : BoidFlockers) : BoidFlockers :=
  mkModel (args self) (status_num self) (schedule self) (space self) (random self) r.

(** [range(a, b)] and [range(n)]. *)
Definition range (a b : Z) : list Z :=
  map (fun k => a + Z.of_nat k) (seq 0 (Z.to_nat (b - a))).

Definition range0 (n : Z) : list Z := range 0 n.

(** *** get_status_num *)

(** The body of the loop: four independent tests on the status string. *)
Definition count_agent (c : Z * Z * Z * Z) (agent : Boid.t) : Z * Z * Z * Z :=
  let '(susceptible_num, infected_num, recovered_num, removed_num) := c in
  let susceptible_num :=
    if String.eqb (Boid.status agent) "susceptible"
    then susceptible_num + 1 else susceptible_num in
  let infected_num :=
    if String.eqb (Boid.status agent) "infected"
    then infected_num + 1 else infected_num in
  let recovered_num :=
    if String.eqb (Boid.status agent) "recovered"
    then recovered_num + 1 else recovered_num in
  let removed_num :=
    if String.eqb (Boid.status agent) "removed"
    then removed_num + 1 else removed_num in
  (susceptible_num, infected_num, recovered_num, removed_num).

Definition count_agents (l : list Boid.t) : Z * Z * Z * Z :=
  fold_left count_agent l (0, 0, 0, 0).

(** [d[key].append(n)] *)
Definition dict_append (key : string) (n : Z) (d : gmap string (list Z))
  : result (gmap string (list Z)) :=
  match d !! key with
  | Some l => Ok (<[key := l ++ [n]]> d)
  | None => Raise (KeyError key)
  end.

Definition get_status_num (self : BoidFlockers) : result BoidFlockers :=
  let '(susceptible_num, infected_num, recovered_num, removed_num) :=
    count_agents (RandomActivation.agents (schedule self)) in
  do d1 <- dict_append "susceptible" susceptible_num (status_num self);
  do d2 <- dict_append "infected" infected_num d1;
  do d3 <- dict_append "recovered" recovered_num d2;
  do d4 <- dict_append "removed" removed_num d3;
  Ok (set_status_num d4 self).

(** *** make_agents *)

(** The body shared by the two loops: one boid with the given status. *)
Definition make_boid (st : string) (i : Z) (s : BoidFlockers * np_random.t)
  : result (BoidFlockers * np_random.t) :=
  let '(self, np) := s in
  let '(rx, g1) := Random.random (random self) in
  let x := (rx * ContinuousSpace.x_max (space self))%Q in
  let '(ry, g2) := Random.random g1 in
  let y := (ry * ContinuousSpace.y_max (space self))%Q in
  let '((r0, r1), np') := np_random.random2 np in
  let velocity := (r0 * 2 - 1, r1 * 2 - 1)%Q in
  let p := args self in
  let boid :=
    Boid.mk i (Some x, Some y) (speed p) velocity (vision p) (separation p)
            st 0 (motality p) (infection_rate p)
            (cohere p) (separate p) (match_ p) in
  do boid' <- ContinuousSpace.place_agent (space self) boid (x, y);
  do sched <- RandomActivation.add boid' (schedule self);
  Ok (set_schedule sched (set_random g2 self), np').

Definition make_agents (self : BoidFlockers) (np : np_random.t)
  : result (BoidFlockers * np_random.t) :=
  let n := population (args self) in
  do s1 <- for_each (make_boid "susceptible") (range0 (n - 5)) (self, np);
  do s2 <- for_each (make_boid "infected") (range (n - 5) n) s1;
  do self' <- get_status_num (fst s2);
  Ok (self', snd s2).

(** *** __init__ *)

(** [g] is the generator [Model.__new__] has put in [self.random] before
    [__init__] runs ([__init__] itself takes no seed argument); [np] is
    the state of numpy's global generator when the constructor is called. *)
Definition init (p : Params) (g : Random.t) (np : np_random.t)
  : result (BoidFlockers * np_random.t) :=
  let d : gmap string (list Z) :=
    <["removed" := []]> (<["recovered" := []]>
      (<["infected" := []]> (<["susceptible" := []]> ∅))) in
  let self :=
    {| args := p;
       status_num := d;
       schedule := RandomActivation.empty;
       space := ContinuousSpace.mk (width p) (height p) true;
       random := g;
       running := false |} in
  do s <- make_agents self np;
  Ok (set_running true (fst s), snd s).

(** ** One tick *)

(** *** The neighbour query of the space *)

Module Space.
(** Modelled from the spec: the neighbour query of section 4.1, "agents
    whose distance to [position] is <= radius, using the shortest
    wrap-around distance per axis when toroidal".  The comparison is made
    on squares, so no square root is needed; a [nan] coordinate compares
    false. *)
Definition axis_delta (torus : bool) (size a b : Q) : Q :=
  let d := Qabs (a - b) in
  if torus then Qmin d (size - d) else d.

(** Modelled from the spec: the distance test of the neighbour query,
    [distance <= radius], on squares. *)
Definition within (sp : ContinuousSpace.t) (p q : Pos) (radius : Q) : bool :=
  match p, q with
  | (Some px, Some py), (Some qx, Some qy) =>
      let dx := axis_delta (ContinuousSpace.torus sp) (ContinuousSpace.x_max sp) px qx in
      let dy := axis_delta (ContinuousSpace.torus sp) (ContinuousSpace.y_max sp) py qy in
      Qle_bool 0 radius && Qle_bool (dx * dx + dy * dy) (radius * radius)
  | _, _ => false
  end.

(** Modelled from the spec: [neighborsWithin(position, radius)], a scan of
    all agents of the space. *)
Definition neighborsWithin (sp : ContinuousSpace.t) (l : list Boid.t)
    (p : Pos) (radius : Q) : list Boid.t :=
  List.filter (fun a => within sp p (Boid.pos a) radius) l.
End Space.

Section Dynamics.

(** Modelled from the spec: the steering of section 4.2 (cohere, separate,
    match, normalisation to [speed], move and wrap) needs a square root
    and is taken as a parameter: the new position and velocity of a boid
    from the space and the agents it holds. *)
Variable fly : ContinuousSpace.t -> Boid.t -> list Boid.t -> Pos * Vec.

(** Modelled from the spec: the rate of the second trial of an infected
    agent, which section 9 leaves open. *)
Variable recovery_rate : Q.

(** Modelled from the spec: a Bernoulli trial with the given rate, drawn
    from the model's generator. *)
Definition trial (rate : Q) (g : Random.t) : bool * Random.t :=
  let '(r, g') := Random.random g in
  (negb (Qle_bool rate r), g').

(** Modelled from the spec: one independent trial per infected neighbour;
    any success infects. *)
Fixpoint exposure (rate : Q) (infected : list Boid.t) (g : Random.t)
  : bool * Random.t :=
  match infected with
  | [] => (false, g)
  | _ :: rest =>
      let '(hit, g1) := trial rate g in
      let '(later, g2) := exposure rate rest g1 in
      (hit || later, g2)
  end.

(** Modelled from the spec: the status transition of section 4.2,
    evaluated once per activation from the status the agent has.
    Susceptible: one trial per infected neighbour within [vision].
    Infected: a mortality trial, then a recovery trial.  Recovered,
    Removed: no transition. *)
Definition update_status (sp : ContinuousSpace.t) (b : Boid.t)
    (others : list Boid.t) (g : Random.t) : string * Random.t :=
  if String.eqb (Boid.status b) "susceptible" then
    let near := Space.neighborsWithin sp others (Boid.pos b) (Boid.vision b) in
    let sick := List.filter (fun a => String.eqb (Boid.status a) "infected") near in
    let '(hit, g') := exposure (Boid.infection_rate b) sick g in
    (if hit then "infected" else "susceptible", g')
  else if String.eqb (Boid.status b) "infected" then
    let '(dies, g1) := trial (Boid.motality b) g in
    if dies then ("removed", g1)
    else
      let '(heals, g2) := trial recovery_rate g1 in
      (if heals then "recovered" else "infected", g2)
  else (Boid.status b, g).

(** Modelled from the spec: one activation of a boid, movement first,
    then the status update. *)
Definition Boid_step (sp : ContinuousSpace.t) (b : Boid.t)
    (others : list Boid.t) (g : Random.t) : Boid.t * Random.t :=
  let '(p, v) := fly sp b others in
  let moved := Boid.set_velocity v (Boid.set_pos p b) in
  let '(st, g') := update_status sp moved others g in
  (Boid.set_status st moved, g').

(** *** mesa.time.RandomActivation.step *)

Definition lookup_key (k : Z) (l : list Boid.t) : option Boid.t :=
  List.find (fun a => Boid.unique_id a =? k) l.

(** The agent registered under [k] is an object mutated in place: its new
    state replaces the old one under the same key. *)
Fixpoint store_key (k : Z) (b : Boid.t) (l : list Boid.t) : list Boid.t :=
  match l with
  | [] => []
  | a :: l' =>
      if Boid.unique_id a =? k then b :: l' else a :: store_key k b l'
  end.

Definition activate (sp : ContinuousSpace.t) (s : list Boid.t * Random.t)
    (k : Z) : list Boid.t * Random.t :=
  let '(l, g) := s in
  match lookup_key k l with
  | Some b =>
      let '(b', g') := Boid_step sp b l g in
      (store_key k b' l, g')
  | None => (l, g)
  end.

(** The keys are shuffled with the model's generator, every agent is
    activated once in that order, and both counters advance. *)
Definition schedule_step (self : BoidFlockers) : BoidFlockers :=
  let sched := schedule self in
  let agent_keys := map Boid.unique_id (RandomActivation.agents sched) in
  let '(agent_keys, g1) := Random.shuffle agent_keys (random self) in
  let '(l, g2) :=
    fold_left (activate (space self)) agent_keys
              (RandomActivation.agents sched, g1) in
  set_schedule
    (RandomActivation.mk l (RandomActivation.steps sched + 1)
                         (RandomActivation.time sched + 1))
    (set_random g2 self).

(** *** step *)

Definition step (self : BoidFlockers) : result BoidFlockers :=
  get_status_num (schedule_step self).

(** [n] calls of [step] in a row. *)
Fixpoint run (n : nat) (self : BoidFlockers) : result BoidFlockers :=
  match n with
  | O => Ok self
  | S n' => do self' <- step self; run n' self'
  end.

(** A model built by the constructor and stepped [n] times. *)
Definition simulate (p : Params) (g : Random.t) (np : np_random.t) (n : nat)
  : result BoidFlockers :=
  do s <- init p g np; run n (fst s).

End Dynamics.

(** ** Concrete inputs used in examples *)

Definition gen_a : Random.t := Random.mk (fun i => N.of_nat (1000 * i + 17)) 0.
Definition np_a : np_random.t := np_random.mk (fun i => N.of_nat (3 * i + 1)) 0.
Definition np_b : np_random.t := np_random.mk (fun i => N.of_nat (5 * i + 2)) 0.

(** A movement that keeps every boid where it is. *)
Definition hover (_ : ContinuousSpace.t) (b : Boid.t) (_ : list Boid.t)
  : Pos * Vec := (Boid.pos b, Boid.velocity b).

Definition with_population (n : Z) : Params :=
  mkParams n 100 100 1 10 0.1 0.3 2 0.025 0.25 0.04.

(** * Vocabulary of the statements *)

(** The four status tags the model knows. *)
Definition known_status (s : string) : Prop :=
  s = "susceptible" \/ s = "infected" \/ s = "recovered" \/ s = "removed".

(** The sum of the four counts of a tally. *)
Definition total (c : Z * Z * Z * Z) : Z :=
  let '(s, i, r, d) := c in s + i + r + d.

(** The history held under the four keys of [status_num]. *)
Definition history (self : BoidFlockers) (hs hi hr hd : list Z) : Prop :=
  status_num self !! "susceptible" = Some hs
  /\ status_num self !! "infected" = Some hi
  /\ status_num self !! "recovered" = Some hr
  /\ status_num self !! "removed" = Some hd.

(** Everything of the model that [get_status_num] leaves alone. *)
Definition same_frame (self self' : BoidFlockers) : Prop :=
  args self' = args self /\ schedule self' = schedule self
  /\ space self' = space self /\ random self' = random self
  /\ running self' = running self.

(** A stored position is a point of the space: no [nan], [0 <= x < x_max]
    and [0 <= y < y_max]. *)
Definition in_bounds (sp : ContinuousSpace.t) (p : Pos) : Prop :=
  match p with
  | (Some x, Some y) =>
      (0 <= x)%Q /\ (x < ContinuousSpace.x_max sp)%Q
      /\ (0 <= y)%Q /\ (y < ContinuousSpace.y_max sp)%Q
  | _ => False
  end.

(** Both components of a vector lie in [-1, 1]. *)
Definition unit_box (v : Vec) : Prop :=
  ((-1 <= fst v)%Q /\ (fst v <= 1)%Q) /\ ((-1 <= snd v)%Q /\ (snd v <= 1)%Q).

(** The agent holds the radii, the speed and the rates of the model as
    they were given. *)
Definition carries (p : Params) (b : Boid.t) : Prop :=
  Boid.speed b = speed p /\ Boid.vision b = vision p
  /\ Boid.separation b = separation p /\ Boid.motality b = motality p
  /\ Boid.infection_rate b = infection_rate p.

(** What [make_boid st i] is known to build. *)
Definition created (p : Params) (sp : ContinuousSpace.t) (st : string) (i : Z)
    (b : Boid.t) : Prop :=
  Boid.unique_id b = i
  /\ Boid.status b = st
  /\ carries p b
  /\ unit_box (Boid.velocity b)
  /\ ((0 < ContinuousSpace.x_max sp)%Q -> (0 < ContinuousSpace.y_max sp)%Q ->
      in_bounds sp (Boid.pos b)).

(** The model after one more agent was registered and two draws of its
    generator were consumed. *)
Definition enrolled (b : Boid.t) (self : BoidFlockers) : BoidFlockers :=
  set_schedule
    (RandomActivation.mk (RandomActivation.agents (schedule self) ++ [b])
                         (RandomActivation.steps (schedule self))
                         (RandomActivation.time (schedule self)))
    (set_random (Random.next (Random.next (random self))) self).

(** [self'] is [self] with the agents [bs] registered after the ones it
    had; the generator apart, nothing else changed. *)
Definition grown (self self' : BoidFlockers) (bs : list Boid.t) : Prop :=
  args self' = args self
  /\ status_num self' = status_num self
  /\ space self' = space self
  /\ running self' = running self
  /\ schedule self'
     = RandomActivation.mk (RandomActivation.agents (schedule self) ++ bs)
                           (RandomActivation.steps (schedule self))
                           (RandomActivation.time (schedule self)).

(** The space the constructor builds: [ContinuousSpace(width, height, True)]. *)
Definition the_space (p : Params) : ContinuousSpace.t :=
  ContinuousSpace.mk (width p) (height p) true.

(** The agents of a constructed model, for evaluation on concrete inputs. *)
Definition agents_of (r : result (BoidFlockers * np_random.t)) : list Boid.t :=
  match r with
  | Ok (m, _) => RandomActivation.agents (schedule m)
  | Raise _ => []
  end.

(** A space whose width is negative. *)
Definition mirrored_params : Params :=
  mkParams 7 (-100) 100 1 10 0.1 0.3 2 0.025 0.25 0.04.

(** The two tags the spec calls terminal. *)
Definition absorbing (s : string) : Prop :=
  s = "recovered" \/ s = "removed".

(** [b'] is a later state of the agent [b]: the same identity, a status
    that did not leave an absorbing tag, and a known tag if it had one. *)
Definition kept (b b' : Boid.t) : Prop :=
  Boid.unique_id b' = Boid.unique_id b
  /\ (absorbing (Boid.status b) -> Boid.status b' = Boid.status b)
  /\ (known_status (Boid.status b) -> known_status (Boid.status b')).

(** The recorded tallies, one 4-tuple per entry of the four series. *)
Definition tallies (hs hi hr hd : list Z) : list (Z * Z * Z * Z) :=
  zip (zip (zip hs hi) hr) hd.

(** The four series hold [n] entries each. *)
Definition level (n : nat) (hs hi hr hd : list Z) : Prop :=
  length hs = n /\ length hi = n /\ length hr = n /\ length hd = n.

(** The state of a model after [n] ticks: every agent has a known status,
    the scheduler counted [n] passes, and each of the [n + 1] recorded
    tallies sums to the number of agents. *)
Definition sound (n : nat) (m : BoidFlockers) : Prop :=
  Forall (fun a => known_status (Boid.status a))
         (RandomActivation.agents (schedule m))
  /\ RandomActivation.time (schedule m) = Z.of_nat n
  /\ RandomActivation.steps (schedule m) = Z.of_nat n
  /\ exists hs hi hr hd,
       history m hs hi hr hd
       /\ level (S n) hs hi hr hd
       /\ Forall (fun c => total c
                           = Z.of_nat (length (RandomActivation.agents (schedule m))))
                 (tallies hs hi hr hd).

(** A model with a single agent, already removed, and empty series. *)
Definition lone_removed : BoidFlockers :=
  {| args := with_population 1;
     status_num :=
       <["removed" := []]> (<["recovered" := []]>
         (<["infected" := []]> (<["susceptible" := []]> ∅)));
     schedule :=
       RandomActivation.mk
         [Boid.mk 0 (Some 1, Some 1)%Q 1 (1, 0)%Q 10 2 "removed" 0 0.1 0.3
                  0.025 0.25 0.04] 0 0;
     space := the_space (with_population 1);
     random := gen_a;
     running := true |}.

(** The [j]-th word a numpy generator will hand out from where it stands. *)
Definition peek (j : nat) (g : np_random.t) : N :=
  (np_random.draws g (np_random.cursor g + j) mod 2 ^ 53)%N.

(** An agent with its velocity blanked. *)
Definition still (b : Boid.t) : Boid.t := Boid.set_velocity (0, 0)%Q b.

(** Two models that differ at most in the velocities of their agents. *)
Definition alike (m1 m2 : BoidFlockers) : Prop :=
  args m1 = args m2 /\ status_num m1 = status_num m2
  /\ space m1 = space m2 /\ random m1 = random m2
  /\ running m1 = running m2
  /\ RandomActivation.steps (schedule m1) = RandomActivation.steps (schedule m2)
  /\ RandomActivation.time (schedule m1) = RandomActivation.time (schedule m2)
  /\ map still (RandomActivation.agents (schedule m1))
     = map still (RandomActivation.agents (schedule m2)).

(** Two outcomes of a construction step: the same exception, or models
    that are [alike]. *)
Definition alike_result (r1 r2 : result (BoidFlockers * np_random.t)) : Prop :=
  match r1, r2 with
  | Ok (m1, _), Ok (m2, _) => alike m1 m2
  | Raise e1, Raise e2 => e1 = e2
  | _, _ => False
  end.

(** * Drawing: draw_initial and draw_succesive *)

(** The two drawing methods only read the model; what they write (the
    title, the two dictionaries of artists, the limits of the axes) is
    kept apart from [BoidFlockers], in a [View.t].  A matplotlib artist is
    the record of the properties the methods set on it. *)

Inductive draw_exn : Type :=
  | AttributeError (attr : string)     (* attribute of [None] *)
  | TypeError                          (* subscript of [None] *)
  | UnboundLocalError (name : string)  (* local variable read before any assignment *)
  | MissingAgent (unique_id : Z).      (* [KeyError] of a dictionary keyed by id *)

Inductive drawn (A : Type) : Type :=
  | Drawn (a : A)
  | Fails (e : draw_exn).
Arguments Drawn {A} a.
Arguments Fails {A} e.

Definition draw_bind {A B : Type} (m : drawn A) (f : A -> drawn B) : drawn B :=
  match m with
  | Drawn a => f a
  | Fails e => Fails e
  end.

Notation "'draw' x <- m ; f" := (draw_bind m (fun x => f))
  (at level 10, x pattern, m at level 100, f at level 200).

Fixpoint draw_each {A S : Type} (body : A -> S -> drawn S) (l : list A) (s : S)
  : drawn S :=
  match l with
  | [] => Drawn s
  | x :: l' => draw s' <- body x s; draw_each body l' s'
  end.

Module Scatter.
(** What [ax.scatter(x, y, c=..., s=10, zorder=2)] returns. *)
Record t : Type := mk {
  offsets : Pos;
  facecolors : string;
  edgecolors : string;
  s : Z;
  zorder : Z
}.

Definition set_offsets (p : Pos) (a : t) : t :=
  mk p (facecolors a) (edgecolors a) (s a) (zorder a).
Definition set_facecolors (c : string) (a : t) : t :=
  mk (offsets a) c (edgecolors a) (s a) (zorder a).
Definition set_edgecolors (c : string) (a : t) : t :=
  mk (offsets a) (facecolors a) c (s a) (zorder a).
End Scatter.

Module Circle.
(** [patches.Circle(xy=..., radius=..., ec=..., fc=..., linestyle=..., zorder=...)] *)
Record t : Type := mk {
  center : Pos;
  radius : Q;
  ec : string;
  fc : string;
  linestyle : string;
  zorder : Z
}.

Definition set_center (p : Pos) (c : t) : t :=
  mk p (radius c) (ec c) (fc c) (linestyle c) (zorder c).
End Circle.

Module View.
(** [self.text] (the title of the axes), [self.agent_pos_lst],
    [self.agent_vision_lst], and the limits and aspect of [self.ax];
    [None] is what [__init__] leaves. *)
Record t : Type := mk {
  text : option string;
  agent_pos_lst : option (gmap Z Scatter.t);
  agent_vision_lst : option (gmap Z Circle.t);
  xlim : option (Q * Q);
  ylim : option (Q * Q);
  aspect : option string
}.

Definition blank : t := mk None None None None None None.
End View.

(** [n] characters ["0"]. *)
Fixpoint zeros (n : nat) : string :=
  match n with
  | O => ""
  | S n' => ("0" ++ zeros n')%string
  end.

(** [f"{z:03d}"]: decimal, zero-padded to width three, the sign counted
    in the width. *)
Definition format_03d (z : Z) : string :=
  let digits := NilZero.string_of_uint (N.to_uint (Z.abs_N z)) in
  let sign := if z <? 0 then "-" else "" in
  (sign ++ zeros (3 - String.length sign - String.length digits) ++ digits)%string.

(** [f"t={self.schedule.time:03d}"] *)
Definition title_of (self : BoidFlockers) : string :=
  ("t=" ++ format_03d (RandomActivation.time (schedule self)))%string.

(** The four tests that assign the colour variable of a drawing loop;
    [color] is what the variable holds when the tests start, [None] while
    it was never assigned. *)
Definition pick_color (color : option string) (status : string)
  : option string :=
  let color := if String.eqb status "susceptible" then Some "green" else color in
  let color := if String.eqb status "infected" then Some "red" else color in
  let color := if String.eqb status "recovered" then Some "blue" else color in
  let color := if String.eqb status "removed" then Some "black" else color in
  color.

(** Reading the colour variable. *)
Definition read_color (name : string) (color : option string) : drawn string :=
  match color with
  | Some c => Drawn c
  | None => Fails (UnboundLocalError name)
  end.

(** The body of the loop of [draw_initial]. *)
Definition draw_agent (vision : Q) (agent : Boid.t)
    (st : option string * gmap Z Scatter.t * gmap Z Circle.t)
  : drawn (option string * gmap Z Scatter.t * gmap Z Circle.t) :=
  let '(agent_color, agent_pos_lst, agent_vision_lst) := st in
  let '(x, y) := Boid.pos agent in
  let agent_color := pick_color agent_color (Boid.status agent) in
  draw c <- read_color "agent_color" agent_color;
  let scat := Scatter.mk (x, y) c "face" 10 2 in
  let agent_pos_lst := <[Boid.unique_id agent := scat]> agent_pos_lst in
  let circle :=
    Circle.mk (Boid.pos agent) vision "lightgrey" "None" "--" 1 in
  let agent_vision_lst := <[Boid.unique_id agent := circle]> agent_vision_lst in
  Drawn (agent_color, agent_pos_lst, agent_vision_lst).

Definition draw_initial (self : BoidFlockers) (v : View.t) : drawn View.t :=
  let text := title_of self in
  draw st <- draw_each (draw_agent (vision (args self)))
                       (RandomActivation.agents (schedule self)) (None, ∅, ∅);
  let '(_, agent_pos_lst, agent_vision_lst) := st in
  Drawn (View.mk (Some text) (Some agent_pos_lst) (Some agent_vision_lst)
                 (Some (0%Q, width (args self))) (Some (0%Q, height (args self)))
                 (Some "equal")).

(** [d[k]] on an attribute that may still be [None]. *)
Definition artist_get {A : Type} (d : option (gmap Z A)) (k : Z) : drawn A :=
  match d with
  | None => Fails TypeError
  | Some m =>
      match m !! k with
      | Some a => Drawn a
      | None => Fails (MissingAgent k)
      end
  end.

(** The artist under [k] is an object mutated in place. *)
Definition artist_set {A : Type} (d : option (gmap Z A)) (k : Z) (a : A)
  : option (gmap Z A) :=
  (fun m => <[k := a]> m) <$> d.

(** The body of the first loop of [draw_succesive]. *)
Definition move_artists (agent : Boid.t)
    (st : option (gmap Z Scatter.t) * option (gmap Z Circle.t))
  : drawn (option (gmap Z Scatter.t) * option (gmap Z Circle.t)) :=
  let '(agent_pos_lst, agent_vision_lst) := st in
  let k := Boid.unique_id agent in
  draw scat <- artist_get agent_pos_lst k;
  let agent_pos_lst :=
    artist_set agent_pos_lst k (Scatter.set_offsets (Boid.pos agent) scat) in
  draw circle <- artist_get agent_vision_lst k;
  let agent_vision_lst :=
    artist_set agent_vision_lst k (Circle.set_center (Boid.pos agent) circle) in
  Drawn (agent_pos_lst, agent_vision_lst).

(** The body of the second loop of [draw_succesive]. *)
Definition recolor_artists (agent : Boid.t)
    (st : option string * option (gmap Z Scatter.t) * option (gmap Z Circle.t))
  : drawn (option string * option (gmap Z Scatter.t) * option (gmap Z Circle.t)) :=
  let '(new_agent_color, agent_pos_lst, agent_vision_lst) := st in
  let k := Boid.unique_id agent in
  let new_agent_color := pick_color new_agent_color (Boid.status agent) in
  draw scat <- artist_get agent_pos_lst k;
  let agent_pos_lst :=
    artist_set agent_pos_lst k (Scatter.set_offsets (Boid.pos agent) scat) in
  draw scat <- artist_get agent_pos_lst k;
  draw c <- read_color "new_agent_color" new_agent_color;
  let agent_pos_lst :=
    artist_set agent_pos_lst k (Scatter.set_facecolors c scat) in
  draw scat <- artist_get agent_pos_lst k;
  let agent_pos_lst :=
    artist_set agent_pos_lst k (Scatter.set_edgecolors c scat) in
  draw circle <- artist_get agent_vision_lst k;
  let agent_vision_lst :=
    artist_set agent_vision_lst k (Circle.set_center (Boid.pos agent) circle) in
  Drawn (new_agent_color, agent_pos_lst, agent_vision_lst).

Definition draw_succesive (self : BoidFlockers) (v : View.t) : drawn View.t :=
  draw text <-
    match View.text v with
    | Some _ => Drawn (title_of self)
    | None => Fails (AttributeError "set_text")
    end;
  let agents := RandomActivation.agents (schedule self) in
  draw st1 <- draw_each move_artists agents
                        (View.agent_pos_lst v, View.agent_vision_lst v);
  draw st2 <- draw_each recolor_artists agents (None, fst st1, snd st1);
  let '(_, agent_pos_lst, agent_vision_lst) := st2 in
  Drawn (View.mk (Some text) agent_pos_lst agent_vision_lst
                 (View.xlim v) (View.ylim v) (View.aspect v)).

(** The colour of each of the four tags. *)
Definition status_color (status : string) : string :=
  if String.eqb status "susceptible" then "green"
  else if String.eqb status "infected" then "red"
  else if String.eqb status "recovered" then "blue"
  else "black".

(** The ids of the agents of a model, in the order of the scheduler. *)
Definition agent_ids (self : BoidFlockers) : list Z :=
  map Boid.unique_id (RandomActivation.agents (schedule self)).

(** A model of three agents whose second one carries a status that is none
    of the four tags. *)
Definition odd_model : BoidFlockers :=
  {| args := with_population 3;
     status_num :=
       <["removed" := []]> (<["recovered" := []]>
         (<["infected" := []]> (<["susceptible" := []]> ∅)));
     schedule :=
       RandomActivation.mk
         [Boid.mk 0 (Some 1, Some 1)%Q 1 (1, 0)%Q 10 2 "infected" 0 0.1 0.3
                  0.025 0.25 0.04;
          Boid.mk 1 (Some 2, Some 2)%Q 1 (1, 0)%Q 10 2 "immune" 0 0.1 0.3
                  0.025 0.25 0.04;
          Boid.mk 2 (Some 3, Some 3)%Q 1 (1, 0)%Q 10 2 "removed" 0 0.1 0.3
                  0.025 0.25 0.04] 0 0;
     space := the_space (with_population 3);
     random := gen_a;
     running := true |}.

(** The artists [draw_initial] creates for an agent drawn in colour [c]. *)
Definition scatter_of (agent : Boid.t) (c : string) : Scatter.t :=
  Scatter.mk (Boid.pos agent) c "face" 10 2.

Definition circle_of (vision : Q) (agent : Boid.t) : Circle.t :=
  Circle.mk (Boid.pos agent) vision "lightgrey" "None" "--" 1.

(** The view [draw_initial] builds for [odd_model]. *)
Definition odd_view : View.t :=
  match draw_initial odd_model View.blank with
  | Drawn v => v
  | Fails _ => View.blank
  end.

(** [odd_model] one tick later, its agents moved and all of a known
    status. *)
Definition odd_model_later : BoidFlockers :=
  set_schedule
    (RandomActivation.mk
       [Boid.mk 0 (Some 2, Some 1)%Q 1 (1, 0)%Q 10 2 "removed" 0 0.1 0.3
                0.025 0.25 0.04;
        Boid.mk 1 (Some 3, Some 2)%Q 1 (1, 0)%Q 10 2 "infected" 0 0.1 0.3
                0.025 0.25 0.04;
        Boid.mk 2 (Some 4, Some 3)%Q 1 (1, 0)%Q 10 2 "removed" 0 0.1 0.3
                0.025 0.25 0.04] 1 1)
    odd_model.

(** [odd_model] with one more agent registered, under the id 7. *)
Definition odd_model_grown : BoidFlockers :=
  set_schedule
    (RandomActivation.mk
       (RandomActivation.agents (schedule odd_model)
        ++ [Boid.mk 7 (Some 5, Some 5)%Q 1 (1, 0)%Q 10 2 "susceptible" 0 0.1
                    0.3 0.025 0.25 0.04]) 0 0)
    odd_model.

(** ** Vocabulary of the further properties *)

(** The number of agents of a list whose status is the given tag. *)
Definition count_status (st : string) (l : list Boid.t) : Z :=
  Z.of_nat (length (List.filter (fun a => String.eqb (Boid.status a) st) l)).

(** The status is one of the four tags, as a test. *)
Definition known_statusb (s : string) : bool :=
  String.eqb s "susceptible" || String.eqb s "infected"
  || String.eqb s "recovered" || String.eqb s "removed".

(** A generator after [k] more words were consumed. *)
Definition advance (k : nat) (g : Random.t) : Random.t :=
  Random.mk (Random.draws g) (Random.cursor g + k).

Definition np_advance (k : nat) (g : np_random.t) : np_random.t :=
  np_random.mk (np_random.draws g) (np_random.cursor g + k).

(** The four keys of [status_num]. *)
Definition status_keys : list string :=
  ["susceptible"; "infected"; "recovered"; "removed"].

(** A space of width zero. *)
Definition flat_params : Params :=
  mkParams 6 0 100 1 10 0.1 0.3 2 0.025 0.25 0.04.

(** The model as [__init__] has set it up when it calls [make_agents]. *)
Definition blank_model (p : Params) (g : Random.t) : BoidFlockers :=
  {| args := p;
     status_num :=
       <["removed" := []]> (<["recovered" := []]>
         (<["infected" := []]> (<["susceptible" := []]> ∅)));
     schedule := RandomActivation.empty;
     space := ContinuousSpace.mk (width p) (height p) true;
     random := g;
     running := false |}.

(** ** Vocabulary of the revised statements *)




(** The velocity [np.random.random(2) * 2 - 1] built from the samples
    [2 j] and [2 j + 1] that a numpy generator hands out from where it
    stands. *)
Definition velocity_at (np : np_random.t) (j : nat) : Vec :=
  ((Z.of_N (peek (2 * j) np) # 2 ^ 53) * 2 - 1,
   (Z.of_N (peek (2 * j + 1) np) # 2 ^ 53) * 2 - 1)%Q.

(** A pass over the keys [keys]: each key in turn is found in the
    register, the agent under it is stepped once by [Boid_step], seeing
    the agents as the earlier activations left them, and its new state is
    stored back under the key. *)
Inductive activations
    (fly : ContinuousSpace.t -> Boid.t -> list Boid.t -> Pos * Vec)
    (recovery_rate : Q) (sp : ContinuousSpace.t)
  : list Z -> list Boid.t * Random.t -> list Boid.t * Random.t -> Prop :=
  | activations_nil (s : list Boid.t * Random.t) :
      activations fly recovery_rate sp [] s s
  | activations_cons (k : Z) (keys : list Z) (l : list Boid.t) (g g' : Random.t)
      (b b' : Boid.t) (s' : list Boid.t * Random.t) :
      lookup_key k l = Some b ->
      Boid_step fly recovery_rate sp b l g = (b', g') ->
      activations fly recovery_rate sp keys (store_key k b' l, g') s' ->
      activations fly recovery_rate sp (k :: keys) (l, g) s'.

(** * Properties *)

(** ** Generators *)

Lemma random_range (g : Random.t) :
  (0 <= fst (Random.random g))%Q /\ (fst (Random.random g) < 1)%Q.
Proof.
  unfold Random.random, Random.word; simpl.
  pose proof (N.mod_upper_bound (Random.draws g (Random.cursor g)) (2 ^ 53)%N) as Hu.
  assert (Hlt : (Random.draws g (Random.cursor g) mod 2 ^ 53 < 2 ^ 53)%N)
    by (apply Hu; discriminate).
  clear Hu. set (k := (Random.draws g (Random.cursor g) mod 2 ^ 53)%N) in *.
  unfold Qle, Qlt; simpl. split; [lia|].
  change (Z.pos (2 ^ 53)) with (Z.of_N (2 ^ 53)%N). lia.
Qed.

Lemma random_sample_range (g : np_random.t) :
  (0 <= fst (np_random.random_sample g))%Q
  /\ (fst (np_random.random_sample g) < 1)%Q.
Proof.
  unfold np_random.random_sample, np_random.word; simpl.
  pose proof (N.mod_upper_bound (np_random.draws g (np_random.cursor g)) (2 ^ 53)%N) as Hu.
  assert (Hlt : (np_random.draws g (np_random.cursor g) mod 2 ^ 53 < 2 ^ 53)%N)
    by (apply Hu; discriminate).
  clear Hu. set (k := (np_random.draws g (np_random.cursor g) mod 2 ^ 53)%N) in *.
  unfold Qle, Qlt; simpl. split; [lia|].
  change (Z.pos (2 ^ 53)) with (Z.of_N (2 ^ 53)%N). lia.
Qed.

(** A sample scaled by a positive size stays below it. *)
Lemma scaled_in_range (r w : Q) :
  (0 <= r)%Q -> (r < 1)%Q -> (0 < w)%Q -> (0 <= r * w)%Q /\ (r * w < w)%Q.
Proof.
  intros H0 H1 Hw. split.
  - apply Qmult_le_0_compat; [assumption | apply Qlt_le_weak; assumption].
  - apply Qlt_le_trans with (1 * w)%Q.
    + apply Qmult_lt_compat_r; assumption.
    + rewrite Qmult_1_l. apply Qle_refl.
Qed.

(** A sample mapped by [r * 2 - 1] lies in [-1, 1]. *)
Lemma centred_in_range (r : Q) :
  (0 <= r)%Q -> (r < 1)%Q -> (-1 <= r * 2 - 1)%Q /\ (r * 2 - 1 <= 1)%Q.
Proof.
  intros H0 H1. destruct r as [n d]. unfold Qle, Qlt in *; simpl in *. lia.
Qed.

(** ** The tally *)

(** An agent with a known status raises exactly one of the four counters. *)
Lemma count_agent_known (c : Z * Z * Z * Z) (a : Boid.t) :
  known_status (Boid.status a) -> total (count_agent c a) = total c + 1.
Proof.
  destruct c as [[[s i] r] d]. unfold count_agent, total.
  intros [H | [H | [H | H]]]; rewrite H; simpl; lia.
Qed.

(** No agent raises more than one counter: the tags are pairwise distinct. *)
Lemma count_agent_at_most_one (c : Z * Z * Z * Z) (a : Boid.t) :
  total c <= total (count_agent c a) <= total c + 1.
Proof.
  destruct c as [[[s i] r] d]. unfold count_agent, total.
  destruct (String.eqb_spec (Boid.status a) "susceptible") as [H | _];
    [rewrite H; simpl; lia |].
  destruct (String.eqb_spec (Boid.status a) "infected") as [H | _];
    [rewrite H; simpl; lia |].
  destruct (String.eqb_spec (Boid.status a) "recovered") as [H | _];
    [rewrite H; simpl; lia |].
  destruct (String.eqb (Boid.status a) "removed"); lia.
Qed.

Lemma fold_count_known (l : list Boid.t) (c : Z * Z * Z * Z) :
  Forall (fun a => known_status (Boid.status a)) l ->
  total (fold_left count_agent l c) = total c + Z.of_nat (length l).
Proof.
  intros H. revert c. induction H as [| a l Ha _ IH]; intros c; simpl.
  - lia.
  - rewrite IH, count_agent_known by assumption. lia.
Qed.

Lemma count_agents_known (l : list Boid.t) :
  Forall (fun a => known_status (Boid.status a)) l ->
  total (count_agents l) = Z.of_nat (length l).
Proof.
  intros H. unfold count_agents. rewrite fold_count_known by assumption.
  reflexivity.
Qed.

Lemma get_status_num_spec (self : BoidFlockers) (hs hi hr hd : list Z) :
  history self hs hi hr hd ->
  exists self',
    get_status_num self = Ok self'
    /\ same_frame self self'
    /\ (let '(s, i, r, d) := count_agents (RandomActivation.agents (schedule self)) in
        history self' (hs ++ [s]) (hi ++ [i]) (hr ++ [r]) (hd ++ [d])).
Proof.
  intros (Hs & Hi & Hr & Hd). unfold get_status_num.
  destruct (count_agents _) as [[[s i] r] d].
  unfold dict_append. rewrite Hs. simpl.
  rewrite lookup_insert_ne, Hi by discriminate. simpl.
  rewrite !lookup_insert_ne, Hr by discriminate. simpl.
  rewrite !lookup_insert_ne, Hd by discriminate. simpl.
  eexists. split; [reflexivity |]. split.
  - unfold same_frame; simpl. tauto.
  - unfold history; simpl.
    rewrite !lookup_insert_ne by discriminate.
    repeat split; simplify_map_eq; reflexivity.
Qed.

(** ** Agent creation *)

Lemma has_key_false (k : Z) (l : list Boid.t) :
  RandomActivation.has_key k l = false <-> k ∉ map Boid.unique_id l.
Proof.
  unfold RandomActivation.has_key. induction l as [| a l IH]; simpl.
  - split; [intros _ H; inversion H | reflexivity].
  - rewrite orb_false_iff, IH, not_elem_of_cons, Z.eqb_neq. intuition congruence.
Qed.

Lemma Qle_bool_false (a b : Q) : (b < a)%Q -> Qle_bool a b = false.
Proof.
  intros H. destruct (Qle_bool a b) eqn:E; [| reflexivity].
  apply Qle_bool_iff in E. exfalso. exact (Qlt_not_le _ _ H E).
Qed.

Lemma Qle_bool_true (a b : Q) : (a <= b)%Q -> Qle_bool a b = true.
Proof. intros H. apply Qle_bool_iff. exact H. Qed.

(** In a toroidal space the adjustment never raises, and it leaves a point
    of the space where it is. *)
Lemma torus_adj_total (sp : ContinuousSpace.t) (p : Vec) :
  ContinuousSpace.torus sp = true ->
  exists q, ContinuousSpace.torus_adj sp p = Ok q
    /\ ((0 <= fst p)%Q -> (fst p < ContinuousSpace.x_max sp)%Q ->
        (0 <= snd p)%Q -> (snd p < ContinuousSpace.y_max sp)%Q ->
        q = (Some (fst p), Some (snd p))).
Proof.
  intros Ht. unfold ContinuousSpace.torus_adj. rewrite Ht. simpl.
  destruct (ContinuousSpace.out_of_bounds sp p) eqn:E; simpl.
  - eexists. split; [reflexivity |]. intros H1 H2 H3 H4. exfalso.
    destruct p as [x y]. simpl in *.
    rewrite (Qle_bool_true _ _ H1), (Qle_bool_true _ _ H3),
      (Qle_bool_false _ _ H2), (Qle_bool_false _ _ H4) in E.
    discriminate.
  - eexists. split; [reflexivity |]. reflexivity.
Qed.

Lemma make_boid_ok (st : string) (i : Z) (self : BoidFlockers) (np : np_random.t) :
  ContinuousSpace.torus (space self) = true ->
  i ∉ map Boid.unique_id (RandomActivation.agents (schedule self)) ->
  exists b,
    make_boid st i (self, np)
    = Ok (enrolled b self, np_random.next (np_random.next np))
    /\ created (args self) (space self) st i b.
Proof.
  intros Ht Hfresh. unfold make_boid. simpl.
  set (x := (_ * ContinuousSpace.x_max (space self))%Q).
  set (y := (_ * ContinuousSpace.y_max (space self))%Q).
  destruct (torus_adj_total (space self) (x, y) Ht) as (q & Hq & Hin).
  unfold ContinuousSpace.place_agent. rewrite Hq. simpl.
  unfold RandomActivation.add. simpl.
  apply has_key_false in Hfresh. rewrite Hfresh.
  eexists. split; [reflexivity |].
  unfold created, carries; simpl. repeat split.
  - apply (centred_in_range _ (proj1 (random_sample_range np))
                              (proj2 (random_sample_range np))).
  - apply (centred_in_range _ (proj1 (random_sample_range np))
                              (proj2 (random_sample_range np))).
  - apply (centred_in_range _ (proj1 (random_sample_range (np_random.next np)))
                              (proj2 (random_sample_range (np_random.next np)))).
  - apply (centred_in_range _ (proj1 (random_sample_range (np_random.next np)))
                              (proj2 (random_sample_range (np_random.next np)))).
  - intros Hw Hh.
    destruct (scaled_in_range _ _ (proj1 (random_range (random self)))
                (proj2 (random_range (random self))) Hw) as [Hx0 Hx1].
    destruct (scaled_in_range _ _
                (proj1 (random_range (Random.next (random self))))
                (proj2 (random_range (Random.next (random self)))) Hh) as [Hy0 Hy1].
    rewrite (Hin Hx0 Hx1 Hy0 Hy1). simpl. tauto.
Qed.

(** *** Ranges *)

Lemma elem_of_range (a b i : Z) : i ∈ range a b <-> a <= i < b.
Proof.
  unfold range. rewrite list_elem_of_fmap. split.
  - intros (k & -> & Hk). apply elem_of_seq in Hk. lia.
  - intros H. exists (Z.to_nat (i - a)). split; [lia |].
    apply elem_of_seq. lia.
Qed.

Lemma NoDup_range (a b : Z) : NoDup (range a b).
Proof.
  unfold range. apply NoDup_fmap_2; [| apply NoDup_seq].
  intros j k H. lia.
Qed.

Lemma length_range (a b : Z) : length (range a b) = Z.to_nat (b - a).
Proof. unfold range. rewrite length_map, length_seq. reflexivity. Qed.

(** *** The two loops *)

Lemma for_each_make_boid (st : string) (ids : list Z) :
  forall (self : BoidFlockers) (np : np_random.t),
    ContinuousSpace.torus (space self) = true ->
    NoDup ids ->
    (forall i, i ∈ ids ->
       i ∉ map Boid.unique_id (RandomActivation.agents (schedule self))) ->
    exists self' np' bs,
      for_each (make_boid st) ids (self, np) = Ok (self', np')
      /\ grown self self' bs
      /\ Forall2 (created (args self) (space self) st) ids bs.
Proof.
  induction ids as [| i ids IH]; intros self np Ht Hnd Hfresh; cbn [for_each].
  - exists self, np, []. split; [reflexivity |]. split; [| constructor].
    unfold grown. rewrite app_nil_r. destruct self as [? ? [? ? ?] ? ? ?].
    simpl. tauto.
  - apply NoDup_cons in Hnd as [Hi Hnd].
    destruct (make_boid_ok st i self np Ht) as (b & Hb & Hc).
    { apply Hfresh. left. }
    rewrite Hb. cbn [bind].
    destruct (IH (enrolled b self) (np_random.next (np_random.next np)))
      as (self' & np' & bs & Hrun & Hg & Hall).
    + exact Ht.
    + exact Hnd.
    + intros k Hk. simpl. rewrite map_app. simpl.
      rewrite elem_of_app, list_elem_of_singleton.
      intros [Hin | ->].
      * exact (Hfresh k (list_elem_of_further _ _ _ Hk) Hin).
      * destruct Hc as [Hid _]. rewrite Hid in Hk. exact (Hi Hk).
    + exists self', np', (b :: bs). split; [exact Hrun |]. split.
      * destruct Hg as (H1 & H2 & H3 & H4 & H5). unfold grown.
        rewrite H1, H2, H3, H4, H5. simpl.
        rewrite <- app_assoc. simpl. tauto.
      * constructor; [exact Hc |].
        simpl in Hall. exact Hall.
Qed.

(** *** make_agents and the constructor *)

(** The ids of the agents the second loop creates are fresh for the first. *)
Lemma created_ids (p : Params) (sp : ContinuousSpace.t) (st : string)
    (ids : list Z) (bs : list Boid.t) :
  Forall2 (created p sp st) ids bs -> map Boid.unique_id bs = ids.
Proof.
  induction 1 as [| i b ids bs Hc _ IH]; simpl; [reflexivity |].
  destruct Hc as [-> _]. rewrite IH. reflexivity.
Qed.

Lemma created_status (p : Params) (sp : ContinuousSpace.t) (st : string)
    (ids : list Z) (bs : list Boid.t) :
  Forall2 (created p sp st) ids bs -> Forall (fun b => Boid.status b = st) bs.
Proof.
  induction 1 as [| i b ids bs Hc _ IH]; constructor; [| exact IH].
  destruct Hc as (_ & Hst & _). exact Hst.
Qed.

(** The constructor always returns a model, and this is what it holds. *)
Lemma init_spec (p : Params) (g : Random.t) (np : np_random.t) :
  exists m np' bs1 bs2,
    init p g np = Ok (m, np')
    /\ args m = p
    /\ space m = the_space p
    /\ running m = true
    /\ schedule m = RandomActivation.mk (bs1 ++ bs2) 0 0
    /\ Forall2 (created p (the_space p) "susceptible")
               (range0 (population p - 5)) bs1
    /\ Forall2 (created p (the_space p) "infected")
               (range (population p - 5) (population p)) bs2
    /\ (let '(s, i, r, d) := count_agents (bs1 ++ bs2) in
        history m [s] [i] [r] [d]).
Proof.
  unfold init, make_agents. simpl.
  set (self := mkModel p _ RandomActivation.empty _ g false).
  destruct (for_each_make_boid "susceptible" (range0 (population p - 5)) self np)
    as (m1 & np1 & bs1 & Hrun1 & Hg1 & Hall1).
  { reflexivity. }
  { apply NoDup_range. }
  { intros i _ H. inversion H. }
  rewrite Hrun1. simpl.
  destruct Hg1 as (Ha1 & Hd1 & Hs1 & Hr1 & Hsch1). simpl in *.
  destruct (for_each_make_boid "infected"
              (range (population p - 5) (population p)) m1 np1)
    as (m2 & np2 & bs2 & Hrun2 & Hg2 & Hall2).
  { rewrite Hs1. reflexivity. }
  { apply NoDup_range. }
  { intros i Hi. rewrite Hsch1. simpl.
    rewrite (created_ids _ _ _ _ _ Hall1). unfold range0.
    rewrite elem_of_range. apply elem_of_range in Hi. lia. }
  rewrite Hrun2. simpl.
  destruct Hg2 as (Ha2 & Hd2 & Hs2 & Hr2 & Hsch2).
  rewrite Hsch1 in Hsch2. simpl in Hsch2. rewrite Hs1, Ha1 in Hall2.
  destruct (get_status_num_spec m2 [] [] [] []) as (m3 & Hget & Hfr & Hh).
  { unfold history. rewrite Hd2, Hd1. repeat split; reflexivity. }
  rewrite Hget. simpl.
  destruct Hfr as (Ha3 & Hsch3 & Hs3 & Hrand3 & Hr3).
  exists (set_running true m3), np2, bs1, bs2.
  split; [reflexivity |]. simpl.
  rewrite Ha3, Ha2, Ha1, Hs3, Hs2, Hs1, Hsch3, Hsch2.
  repeat (split; [first [reflexivity | assumption] |]).
  rewrite Hsch2 in Hh. simpl in Hh.
  destruct (count_agents (bs1 ++ bs2)) as [[[s i] r] d].
  exact Hh.
Qed.

Lemma created_Forall (p : Params) (sp : ContinuousSpace.t) (st : string)
    (P : Boid.t -> Prop) (ids : list Z) (bs : list Boid.t) :
  (forall i b, created p sp st i b -> P b) ->
  Forall2 (created p sp st) ids bs -> Forall P bs.
Proof.
  intros HP. induction 1 as [| i b ids bs Hc _ IH]; constructor; eauto.
Qed.

(** From five agents on, the constructor registers [population] agents: the
    last five infected, the others susceptible. *)
Lemma make_agents_large_population (p : Params) (g : Random.t) (np : np_random.t) :
  5 <= population p ->
  exists m np' bs1 bs2,
    init p g np = Ok (m, np')
    /\ RandomActivation.agents (schedule m) = bs1 ++ bs2
    /\ Z.of_nat (length (bs1 ++ bs2)) = population p
    /\ length bs2 = 5%nat
    /\ Forall (fun b => Boid.status b = "susceptible") bs1
    /\ Forall (fun b => Boid.status b = "infected") bs2.
Proof.
  intros Hn.
  destruct (init_spec p g np)
    as (m & np' & bs1 & bs2 & Hi & _ & _ & _ & Hs & H1 & H2 & _).
  exists m, np', bs1, bs2. split; [exact Hi |].
  pose proof (Forall2_length _ _ _ H1) as L1.
  pose proof (Forall2_length _ _ _ H2) as L2.
  unfold range0 in L1. rewrite length_range in L1, L2.
  rewrite Hs, length_app. simpl.
  repeat split.
  - lia.
  - lia.
  - exact (created_status _ _ _ _ _ H1).
  - exact (created_status _ _ _ _ _ H2).
Qed.

(** C2, evaluated where it fails: asked for three agents, [make_agents]
    registers five, all infected, with the ids -2 to 2. *)
Theorem make_agents_population_3 :
  map (fun b => (Boid.unique_id b, Boid.status b))
      (agents_of (init (with_population 3) gen_a np_a))
  = [(-2, "infected"); (-1, "infected"); (0, "infected");
     (1, "infected"); (2, "infected")]
  /\ Z.of_nat (length (agents_of (init (with_population 3) gen_a np_a)))
     <> population (with_population 3).
Proof. split; [vm_compute; reflexivity | vm_compute; discriminate]. Qed.

(** C9: for a population from 0 to 4 the first loop creates nothing and the
    second creates five infected agents with the distinct ids
    [population - 5] to [population - 1], the first of them negative; the
    model holds five agents, not [population]. *)
Theorem make_agents_small_population (p : Params) (g : Random.t)
    (np : np_random.t) :
  0 <= population p < 5 ->
  exists m np',
    init p g np = Ok (m, np')
    /\ map Boid.unique_id (RandomActivation.agents (schedule m))
       = [population p - 5; population p - 4; population p - 3;
          population p - 2; population p - 1]
    /\ NoDup (map Boid.unique_id (RandomActivation.agents (schedule m)))
    /\ population p - 5 < 0
    /\ Forall (fun b => Boid.status b = "infected")
              (RandomActivation.agents (schedule m))
    /\ length (RandomActivation.agents (schedule m)) = 5%nat
    /\ Z.of_nat (length (RandomActivation.agents (schedule m))) <> population p.
Proof.
  intros Hn.
  destruct (init_spec p g np)
    as (m & np' & bs1 & bs2 & Hi & _ & _ & _ & Hs & H1 & H2 & _).
  exists m, np'. split; [exact Hi |].
  assert (E1 : range0 (population p - 5) = []).
  { unfold range0, range.
    replace (Z.to_nat (population p - 5 - 0)) with 0%nat by lia. reflexivity. }
  rewrite E1 in H1. apply Forall2_nil_inv_l in H1. subst bs1.
  rewrite Hs. simpl.
  assert (E2 : range (population p - 5) (population p)
               = [population p - 5; population p - 4; population p - 3;
                  population p - 2; population p - 1]).
  { unfold range.
    replace (Z.to_nat (population p - (population p - 5))) with 5%nat by lia.
    simpl. repeat (f_equal; try lia). }
  pose proof (created_ids _ _ _ _ _ H2) as Hids.
  pose proof (Forall2_length _ _ _ H2) as Hlen.
  rewrite length_range in Hlen.
  repeat split.
  - rewrite Hids. exact E2.
  - rewrite Hids. apply NoDup_range.
  - lia.
  - exact (created_status _ _ _ _ _ H2).
  - lia.
  - lia.
Qed.

Lemma make_agents_small_population_witness :
  0 <= population (with_population 3) < 5
  /\ exists m np',
       init (with_population 3) gen_a np_a = Ok (m, np')
       /\ map Boid.unique_id (RandomActivation.agents (schedule m))
          = [population (with_population 3) - 5;
             population (with_population 3) - 4;
             population (with_population 3) - 3;
             population (with_population 3) - 2;
             population (with_population 3) - 1]
       /\ NoDup (map Boid.unique_id (RandomActivation.agents (schedule m)))
       /\ population (with_population 3) - 5 < 0
       /\ Forall (fun b => Boid.status b = "infected")
                 (RandomActivation.agents (schedule m))
       /\ length (RandomActivation.agents (schedule m)) = 5%nat
       /\ Z.of_nat (length (RandomActivation.agents (schedule m)))
          <> population (with_population 3).
Proof.
  split; [simpl; lia |].
  apply (make_agents_small_population (with_population 3) gen_a np_a).
  simpl; lia.
Defined.

(** *** Initial positions and velocities *)

Lemma in_bounds_positive (sp : ContinuousSpace.t) (q : Pos) :
  in_bounds sp q -> (0 < ContinuousSpace.x_max sp)%Q.
Proof.
  destruct q as [[x |] [y |]]; simpl; try tauto.
  intros (H0 & H1 & _). exact (Qle_lt_trans _ _ _ H0 H1).
Qed.

(** C7 fails as stated: with [width = -100] the constructor places its
    first agent at [x = -1700 / 2^53], outside [0, width). *)
Lemma make_agents_negative_width :
  exists b,
    head (agents_of (init mirrored_params gen_a np_a)) = Some b
    /\ Boid.pos b = (Some (-1700 # 2 ^ 53)%Q, Some (101700 # 2 ^ 53)%Q)
    /\ ~ in_bounds (the_space mirrored_params) (Boid.pos b).
Proof.
  eexists. split; [vm_compute; reflexivity |]. split; [reflexivity |].
  intros H. apply in_bounds_positive in H. vm_compute in H. discriminate.
Qed.

(** C7, amended: in a space of positive width and height every agent the
    constructor creates starts at a point with [0 <= x < width] and
    [0 <= y < height], and with both velocity components in [-1, 1]. *)
Theorem make_agents_in_bounds (p : Params) (g : Random.t) (np : np_random.t) :
  (0 < width p)%Q -> (0 < height p)%Q ->
  exists m np',
    init p g np = Ok (m, np')
    /\ Forall (fun b => in_bounds (the_space p) (Boid.pos b)
                        /\ unit_box (Boid.velocity b))
              (RandomActivation.agents (schedule m)).
Proof.
  intros Hw Hh.
  destruct (init_spec p g np)
    as (m & np' & bs1 & bs2 & Hi & _ & _ & _ & Hs & H1 & H2 & _).
  exists m, np'. split; [exact Hi |].
  rewrite Hs. simpl. apply Forall_app.
  split; (eapply created_Forall; [| eassumption]);
    intros i b (_ & _ & _ & Hv & Hpos); split; [apply Hpos | | apply Hpos |];
    assumption.
Qed.

Lemma make_agents_in_bounds_witness :
  (0 < width (with_population 3))%Q /\ (0 < height (with_population 3))%Q
  /\ exists m np',
       init (with_population 3) gen_a np_a = Ok (m, np')
       /\ Forall (fun b => in_bounds (the_space (with_population 3)) (Boid.pos b)
                           /\ unit_box (Boid.velocity b))
                 (RandomActivation.agents (schedule m)).
Proof.
  split; [reflexivity |]. split; [reflexivity |].
  apply (make_agents_in_bounds (with_population 3) gen_a np_a); reflexivity.
Defined.

(** *** Defaults *)

(** C8: the defaults of the constructor are population 100, width and
    height 100, speed 1, vision 10, separation 2, mortality 0.1, infection
    rate 0.3, cohere 0.025, separate 0.25 and match 0.04; a model built
    from them holds them and one hundred agents. *)
Theorem default_parameter_values :
  population default_params = 100
  /\ (width default_params == 100)%Q
  /\ (height default_params == 100)%Q
  /\ (speed default_params == 1)%Q
  /\ (vision default_params == 10)%Q
  /\ (separation default_params == 2)%Q
  /\ (motality default_params == 1 # 10)%Q
  /\ (infection_rate default_params == 3 # 10)%Q
  /\ (cohere default_params == 25 # 1000)%Q
  /\ (separate default_params == 25 # 100)%Q
  /\ (match_ default_params == 4 # 100)%Q
  /\ forall g np, exists m np',
       init default_params g np = Ok (m, np')
       /\ args m = default_params
       /\ length (RandomActivation.agents (schedule m)) = 100%nat.
Proof.
  repeat (split; [reflexivity |]).
  intros g np.
  destruct (init_spec default_params g np)
    as (m & np' & bs1 & bs2 & Hi & Ha & _ & _ & Hs & H1 & H2 & _).
  exists m, np'. repeat split; try assumption.
  rewrite Hs. simpl. rewrite length_app.
  rewrite <- (Forall2_length _ _ _ H1), <- (Forall2_length _ _ _ H2).
  reflexivity.
Qed.

(** ** One tick: what an activation keeps *)

Lemma kept_refl (b : Boid.t) : kept b b.
Proof. unfold kept. tauto. Qed.

Lemma kept_trans (a b c : Boid.t) : kept a b -> kept b c -> kept a c.
Proof.
  intros (I1 & A1 & K1) (I2 & A2 & K2). unfold kept. split; [congruence |].
  split.
  - intros Ha. rewrite A2; [exact (A1 Ha) |]. rewrite (A1 Ha). exact Ha.
  - intros Hk. exact (K2 (K1 Hk)).
Qed.

Lemma Forall2_kept_refl (l : list Boid.t) : Forall2 kept l l.
Proof. apply Forall_Forall2_diag, Forall_forall. intros b _. apply kept_refl. Qed.

Lemma Forall2_kept_trans (l1 l2 l3 : list Boid.t) :
  Forall2 kept l1 l2 -> Forall2 kept l2 l3 -> Forall2 kept l1 l3.
Proof. apply Forall2_trans. exact kept_trans. Qed.

Section DynamicsProperties.

Variable fly : ContinuousSpace.t -> Boid.t -> list Boid.t -> Pos * Vec.
Variable recovery_rate : Q.

Lemma update_status_absorbing (sp : ContinuousSpace.t) (b : Boid.t)
    (others : list Boid.t) (g : Random.t) :
  absorbing (Boid.status b) ->
  update_status recovery_rate sp b others g = (Boid.status b, g).
Proof.
  unfold update_status. intros [H | H]; rewrite H; reflexivity.
Qed.

Lemma update_status_known (sp : ContinuousSpace.t) (b : Boid.t)
    (others : list Boid.t) (g : Random.t) :
  known_status (Boid.status b) ->
  known_status (fst (update_status recovery_rate sp b others g)).
Proof.
  unfold update_status, known_status.
  intros [H | [H | [H | H]]]; rewrite H; simpl.
  - destruct (exposure _ _ _) as [[|] g']; simpl; auto 6.
  - repeat (match goal with |- context [negb ?c] => destruct c end; simpl);
      auto 6.
  - auto 6.
  - auto 6.
Qed.

Lemma Boid_step_kept (sp : ContinuousSpace.t) (b : Boid.t)
    (others : list Boid.t) (g : Random.t) :
  kept b (fst (Boid_step fly recovery_rate sp b others g)).
Proof.
  unfold Boid_step. destruct (fly sp b others) as [p v].
  pose proof (update_status_absorbing sp
                (Boid.set_velocity v (Boid.set_pos p b)) others g) as Ha.
  pose proof (update_status_known sp
                (Boid.set_velocity v (Boid.set_pos p b)) others g) as Hk.
  destruct (update_status recovery_rate sp _ others g) as [st g'].
  unfold kept. simpl in *. split; [reflexivity |]. split.
  - intros H. specialize (Ha H). congruence.
  - exact Hk.
Qed.

(** Writing back under a key touches only the agent read under it. *)
Lemma store_key_kept (k : Z) (f : Boid.t -> Boid.t) (l : list Boid.t) :
  (forall b, kept b (f b)) ->
  Forall2 kept l
    (match lookup_key k l with
     | Some b => store_key k (f b) l
     | None => l
     end).
Proof.
  intros Hf. unfold lookup_key. induction l as [| a l IH]; simpl.
  - constructor.
  - destruct (Boid.unique_id a =? k) eqn:E.
    + constructor; [apply Hf | apply Forall2_kept_refl].
    + destruct (List.find _ l) as [b |].
      * constructor; [apply kept_refl | exact IH].
      * apply Forall2_kept_refl.
Qed.

Lemma activate_kept (sp : ContinuousSpace.t) (l : list Boid.t)
    (g : Random.t) (k : Z) :
  Forall2 kept l (fst (activate fly recovery_rate sp (l, g) k)).
Proof.
  unfold activate.
  pose proof (store_key_kept k
    (fun b => fst (Boid_step fly recovery_rate sp b l g)) l
    (fun b => Boid_step_kept sp b l g)) as H.
  destruct (lookup_key k l) as [b |]; [| exact H].
  destruct (Boid_step fly recovery_rate sp b l g) as [b' g']. exact H.
Qed.

Lemma activations_kept (sp : ContinuousSpace.t) (keys : list Z) :
  forall (l : list Boid.t) (g : Random.t),
    Forall2 kept l (fst (fold_left (activate fly recovery_rate sp) keys (l, g))).
Proof.
  induction keys as [| k keys IH]; intros l g; cbn [fold_left].
  - apply Forall2_kept_refl.
  - pose proof (activate_kept sp l g k) as H1.
    destruct (activate fly recovery_rate sp (l, g) k) as [l1 g1].
    exact (Forall2_kept_trans _ _ _ H1 (IH l1 g1)).
Qed.

(** One pass of the scheduler: the same agents in the same order, each
    in a later state; both counters one higher; the history untouched. *)
Lemma schedule_step_spec (self : BoidFlockers) :
  let self' := schedule_step fly recovery_rate self in
  Forall2 kept (RandomActivation.agents (schedule self))
               (RandomActivation.agents (schedule self'))
  /\ RandomActivation.steps (schedule self')
     = RandomActivation.steps (schedule self) + 1
  /\ RandomActivation.time (schedule self')
     = RandomActivation.time (schedule self) + 1
  /\ status_num self' = status_num self
  /\ args self' = args self
  /\ space self' = space self
  /\ running self' = running self.
Proof.
  unfold schedule_step.
  destruct (Random.shuffle _ (random self)) as [keys g1].
  pose proof (activations_kept (space self) keys
                (RandomActivation.agents (schedule self)) g1) as H.
  destruct (fold_left _ keys _) as [l g2]. simpl in *.
  repeat split. exact H.
Qed.

End DynamicsProperties.

(** ** The history over a run *)

Lemma tallies_snoc (n : nat) (hs hi hr hd : list Z) (s i r d : Z) :
  level n hs hi hr hd ->
  tallies (hs ++ [s]) (hi ++ [i]) (hr ++ [r]) (hd ++ [d])
  = tallies hs hi hr hd ++ [(s, i, r, d)].
Proof.
  intros (Ls & Li & Lr & Ld). unfold tallies.
  rewrite (zip_with_app pair hs [s] hi [i]) by congruence.
  rewrite (zip_with_app pair (zip hs hi) _ hr [r])
    by (rewrite length_zip_with; lia).
  rewrite (zip_with_app pair (zip (zip hs hi) hr) _ hd [d])
    by (rewrite !length_zip_with; lia).
  reflexivity.
Qed.

Lemma level_snoc (n : nat) (hs hi hr hd : list Z) (s i r d : Z) :
  level n hs hi hr hd ->
  level (S n) (hs ++ [s]) (hi ++ [i]) (hr ++ [r]) (hd ++ [d]).
Proof.
  unfold level. rewrite !length_app. simpl. lia.
Qed.

Lemma length_tallies (n : nat) (hs hi hr hd : list Z) :
  level n hs hi hr hd -> length (tallies hs hi hr hd) = n.
Proof.
  intros (Ls & Li & Lr & Ld). unfold tallies. rewrite !length_zip_with. lia.
Qed.

Lemma init_sound (p : Params) (g : Random.t) (np : np_random.t) :
  exists m np', init p g np = Ok (m, np') /\ sound 0 m.
Proof.
  destruct (init_spec p g np)
    as (m & np' & bs1 & bs2 & Hi & _ & _ & _ & Hs & H1 & H2 & Hh).
  exists m, np'. split; [exact Hi |].
  assert (Hk : Forall (fun a => known_status (Boid.status a)) (bs1 ++ bs2)).
  { apply Forall_app. split.
    - eapply created_Forall; [| exact H1].
      intros i b (_ & Hst & _). rewrite Hst. unfold known_status. auto.
    - eapply created_Forall; [| exact H2].
      intros i b (_ & Hst & _). rewrite Hst. unfold known_status. auto. }
  unfold sound. rewrite Hs. simpl. split; [exact Hk |].
  split; [reflexivity |]. split; [reflexivity |].
  pose proof (count_agents_known _ Hk) as Hsum.
  destruct (count_agents (bs1 ++ bs2)) as [[[s i] r] d].
  exists [s], [i], [r], [d]. split; [exact Hh |].
  split; [repeat split |].
  unfold tallies. simpl. constructor; [exact Hsum | constructor].
Qed.

Section Runs.

Variable fly : ContinuousSpace.t -> Boid.t -> list Boid.t -> Pos * Vec.
Variable recovery_rate : Q.

(** One call of [step] on a model that holds the four series. *)
Lemma step_spec (self : BoidFlockers) (hs hi hr hd : list Z) :
  history self hs hi hr hd ->
  exists self',
    step fly recovery_rate self = Ok self'
    /\ Forall2 kept (RandomActivation.agents (schedule self))
                    (RandomActivation.agents (schedule self'))
    /\ RandomActivation.time (schedule self')
       = RandomActivation.time (schedule self) + 1
    /\ RandomActivation.steps (schedule self')
       = RandomActivation.steps (schedule self) + 1
    /\ (let '(s, i, r, d) :=
          count_agents (RandomActivation.agents (schedule self')) in
        history self' (hs ++ [s]) (hi ++ [i]) (hr ++ [r]) (hd ++ [d])).
Proof.
  intros Hh. unfold step.
  destruct (schedule_step_spec fly recovery_rate self)
    as (Hk & Hst & Ht & Hd & _).
  destruct (get_status_num_spec (schedule_step fly recovery_rate self)
              hs hi hr hd) as (self' & Hget & Hfr & Hh').
  { unfold history. rewrite Hd. exact Hh. }
  exists self'. split; [exact Hget |].
  destruct Hfr as (_ & Hsch & _). rewrite Hsch.
  repeat (split; [assumption |]). exact Hh'.
Qed.

Lemma kept_known (l l' : list Boid.t) :
  Forall2 kept l l' ->
  Forall (fun a => known_status (Boid.status a)) l ->
  Forall (fun a => known_status (Boid.status a)) l'.
Proof.
  induction 1 as [| a b l l' (_ & _ & Hk) _ IH]; intros H; [constructor |].
  apply Forall_cons in H as [Ha Hl]. constructor; auto.
Qed.

Lemma step_sound (n : nat) (self : BoidFlockers) :
  sound n self ->
  exists self', step fly recovery_rate self = Ok self' /\ sound (S n) self'.
Proof.
  intros (Hk & Ht & Hst & hs & hi & hr & hd & Hh & Hl & Hsum).
  destruct (step_spec self hs hi hr hd Hh)
    as (self' & Hrun & Hkept & Ht' & Hst' & Hh').
  exists self'. split; [exact Hrun |].
  pose proof (kept_known _ _ Hkept Hk) as Hk'.
  pose proof (Forall2_length _ _ _ Hkept) as Hlen.
  pose proof (count_agents_known _ Hk') as Htot.
  unfold sound. split; [exact Hk' |].
  split; [lia |]. split; [lia |].
  destruct (count_agents (RandomActivation.agents (schedule self')))
    as [[[s i] r] d].
  exists (hs ++ [s]), (hi ++ [i]), (hr ++ [r]), (hd ++ [d]).
  split; [exact Hh' |]. split; [apply level_snoc; exact Hl |].
  rewrite (tallies_snoc _ _ _ _ _ _ _ _ _ Hl).
  apply Forall_app. split.
  - rewrite <- Hlen. exact Hsum.
  - constructor; [exact Htot | constructor].
Qed.

Lemma run_snoc (n : nat) :
  forall self,
    run fly recovery_rate (S n) self
    = do self' <- run fly recovery_rate n self; step fly recovery_rate self'.
Proof.
  induction n as [| n IH]; intros self.
  - simpl. destruct (step fly recovery_rate self); reflexivity.
  - change (run fly recovery_rate (S (S n)) self)
      with (do s' <- step fly recovery_rate self;
            run fly recovery_rate (S n) s').
    change (run fly recovery_rate (S n) self)
      with (do s' <- step fly recovery_rate self; run fly recovery_rate n s').
    destruct (step fly recovery_rate self) as [s' | e]; simpl; [| reflexivity].
    apply IH.
Qed.

Lemma run_sound (n : nat) :
  forall k self,
    sound k self ->
    exists self', run fly recovery_rate n self = Ok self'
                  /\ sound (n + k) self'.
Proof.
  induction n as [| n IH]; intros k self Hs.
  - exists self. split; [reflexivity | exact Hs].
  - destruct (IH k self Hs) as (m & Hrun & Hm).
    destruct (step_sound _ m Hm) as (m' & Hstep & Hm').
    exists m'. rewrite run_snoc, Hrun. simpl. split; [exact Hstep | exact Hm'].
Qed.

End Runs.

Section Claims.

Variable fly : ContinuousSpace.t -> Boid.t -> list Boid.t -> Pos * Vec.
Variable recovery_rate : Q.

(** Any number of ticks on a model that holds the four series returns a
    model with the same agents in the same order, each in a later state. *)
Lemma run_kept (n : nat) :
  forall self hs hi hr hd,
    history self hs hi hr hd ->
    exists self',
      run fly recovery_rate n self = Ok self'
      /\ Forall2 kept (RandomActivation.agents (schedule self))
                      (RandomActivation.agents (schedule self')).
Proof.
  induction n as [| n IH]; intros self hs hi hr hd Hh.
  - exists self. split; [reflexivity | apply Forall2_kept_refl].
  - destruct (step_spec fly recovery_rate self hs hi hr hd Hh)
      as (m & Hstep & Hk & _ & _ & Hh').
    destruct (count_agents (RandomActivation.agents (schedule m)))
      as [[[s i] r] d].
    destruct (IH m _ _ _ _ Hh') as (m' & Hrun & Hk').
    exists m'. cbn [run]. rewrite Hstep. cbn [bind].
    split; [exact Hrun | exact (Forall2_kept_trans _ _ _ Hk Hk')].
Qed.

(** C1: after any number of ticks, each recorded tally (the one of the
    constructor included) sums to the number of agents the scheduler
    holds, which is the number the constructor registered. *)
Theorem tally_sums_to_agent_count (p : Params) (g : Random.t)
    (np : np_random.t) (n : nat) :
  exists m0 np' m hs hi hr hd,
    init p g np = Ok (m0, np')
    /\ run fly recovery_rate n m0 = Ok m
    /\ length (RandomActivation.agents (schedule m))
       = length (RandomActivation.agents (schedule m0))
    /\ history m hs hi hr hd
    /\ length (tallies hs hi hr hd) = S n
    /\ Forall (fun c => total c
                        = Z.of_nat (length (RandomActivation.agents (schedule m))))
              (tallies hs hi hr hd).
Proof.
  destruct (init_sound p g np) as (m0 & np' & Hi & Hs0).
  destruct (run_sound fly recovery_rate n 0 m0 Hs0) as (m & Hrun & Hs).
  pose proof Hs0 as (_ & _ & _ & hs0 & hi0 & hr0 & hd0 & Hh0 & _).
  destruct (run_kept n m0 _ _ _ _ Hh0) as (m' & Hrun' & Hk).
  rewrite Hrun in Hrun'. injection Hrun' as <-.
  destruct Hs as (_ & _ & _ & hs & hi & hr & hd & Hh & Hl & Hsum).
  exists m0, np', m, hs, hi, hr, hd.
  rewrite Nat.add_0_r in Hl.
  split; [exact Hi |]. split; [exact Hrun |].
  split; [symmetry; exact (Forall2_length _ _ _ Hk) |].
  split; [exact Hh |].
  split; [exact (length_tallies _ _ _ _ _ Hl) | exact Hsum].
Qed.

(** C10: after the constructor and after any number of ticks the four
    series are held under their keys and have the same length, one entry
    per call of [get_status_num]. *)
Theorem status_series_equal_length (p : Params) (g : Random.t)
    (np : np_random.t) (n : nat) :
  exists m hs hi hr hd,
    simulate fly recovery_rate p g np n = Ok m
    /\ history m hs hi hr hd
    /\ length hs = S n /\ length hi = S n
    /\ length hr = S n /\ length hd = S n.
Proof.
  destruct (init_sound p g np) as (m0 & np' & Hi & Hs0).
  destruct (run_sound fly recovery_rate n 0 m0 Hs0) as (m & Hrun & Hs).
  rewrite Nat.add_0_r in Hs.
  destruct Hs as (_ & _ & _ & hs & hi & hr & hd & Hh & Hl & _).
  exists m, hs, hi, hr, hd. unfold simulate. rewrite Hi. simpl.
  split; [exact Hrun |]. split; [exact Hh | exact Hl].
Qed.

(** C3: an agent whose status is recovered or removed keeps it through
    an activation, and through any number of ticks of the model that
    holds it. *)
Theorem absorbing_status_is_final (self : BoidFlockers)
    (hs hi hr hd : list Z) (n k : nat) (b : Boid.t) :
  history self hs hi hr hd ->
  RandomActivation.agents (schedule self) !! k = Some b ->
  absorbing (Boid.status b) ->
  (forall sp others g,
     Boid.status (fst (Boid_step fly recovery_rate sp b others g))
     = Boid.status b)
  /\ exists self' b',
       run fly recovery_rate n self = Ok self'
       /\ RandomActivation.agents (schedule self') !! k = Some b'
       /\ Boid.unique_id b' = Boid.unique_id b
       /\ Boid.status b' = Boid.status b.
Proof.
  intros Hh Hb Ha. split.
  - intros sp others g.
    destruct (Boid_step_kept fly recovery_rate sp b others g) as (_ & H & _).
    exact (H Ha).
  - destruct (run_kept n self hs hi hr hd Hh) as (self' & Hrun & Hk).
    destruct (Forall2_lookup_l _ _ _ _ _ Hk Hb) as (b' & Hb' & Hid & Hst & _).
    exists self', b'. repeat split; auto.
Qed.

End Claims.

Lemma absorbing_status_is_final_witness :
  history lone_removed [] [] [] []
  /\ RandomActivation.agents (schedule lone_removed) !! 0%nat
     = Some (Boid.mk 0 (Some 1, Some 1)%Q 1 (1, 0)%Q 10 2 "removed" 0 0.1 0.3
                     0.025 0.25 0.04)
  /\ absorbing "removed"
  /\ exists self' b',
       run hover 0.5 3 lone_removed = Ok self'
       /\ RandomActivation.agents (schedule self') !! 0%nat = Some b'
       /\ Boid.unique_id b' = 0
       /\ Boid.status b' = "removed".
Proof.
  assert (Hh : history lone_removed [] [] [] [])
    by (unfold history; repeat split; reflexivity).
  assert (Ha : absorbing "removed") by (right; reflexivity).
  split; [exact Hh |]. split; [reflexivity |]. split; [exact Ha |].
  exact (proj2 (absorbing_status_is_final hover 0.5 lone_removed [] [] [] [] 3 0
                  _ Hh eq_refl Ha)).
Defined.

(** ** Reproducibility *)

(** C4 fails as stated: with the same state of the model's generator and
    the same parameters, two constructions started from different states
    of numpy's global generator give the agents different initial
    velocities. *)
Lemma velocity_escapes_seed :
  map Boid.velocity (agents_of (init (with_population 3) gen_a np_a))
  <> map Boid.velocity (agents_of (init (with_population 3) gen_a np_b)).
Proof. vm_compute. discriminate. Qed.

(** *** What the seed alone determines *)

Lemma has_key_still (k : Z) (l : list Boid.t) :
  RandomActivation.has_key k (map still l) = RandomActivation.has_key k l.
Proof.
  unfold RandomActivation.has_key. induction l as [| a l IH]; simpl;
    [reflexivity | rewrite IH; reflexivity].
Qed.

Lemma fold_count_still (l : list Boid.t) :
  forall c, fold_left count_agent (map still l) c = fold_left count_agent l c.
Proof.
  induction l as [| a l IH]; intros c; simpl; [reflexivity |].
  rewrite IH. reflexivity.
Qed.

Lemma make_boid_alike (st : string) (i : Z) (m1 m2 : BoidFlockers)
    (n1 n2 : np_random.t) :
  alike m1 m2 ->
  alike_result (make_boid st i (m1, n1)) (make_boid st i (m2, n2)).
Proof.
  destruct m1 as [a1 d1 [l1 s1 t1] sp1 g1 r1].
  destruct m2 as [a2 d2 [l2 s2 t2] sp2 g2 r2].
  unfold alike. simpl. intros (-> & -> & -> & -> & -> & -> & -> & Hl).
  unfold make_boid.
  cbn [Random.random args space random schedule fst snd].
  destruct (np_random.random2 n1) as [[u0 u1] n1'].
  destruct (np_random.random2 n2) as [[v0 v1] n2'].
  unfold ContinuousSpace.place_agent.
  destruct (ContinuousSpace.torus_adj sp2 _) as [q | e]; cbn [bind];
    [| reflexivity].
  unfold RandomActivation.add.
  cbn [RandomActivation.agents Boid.unique_id Boid.set_pos].
  rewrite <- (has_key_still i l1), Hl, has_key_still.
  destruct (RandomActivation.has_key i l2); cbn [bind]; [reflexivity |].
  unfold alike_result, alike. simpl. rewrite !map_app, Hl.
  repeat split.
Qed.

Lemma for_each_make_boid_alike (st : string) (ids : list Z) :
  forall (m1 m2 : BoidFlockers) (n1 n2 : np_random.t),
    alike m1 m2 ->
    alike_result (for_each (make_boid st) ids (m1, n1))
                 (for_each (make_boid st) ids (m2, n2)).
Proof.
  induction ids as [| i ids IH]; intros m1 m2 n1 n2 H; cbn [for_each].
  - exact H.
  - pose proof (make_boid_alike st i m1 m2 n1 n2 H) as Hb.
    destruct (make_boid st i (m1, n1)) as [[a1 b1] | e1];
      destruct (make_boid st i (m2, n2)) as [[a2 b2] | e2]; cbn [bind];
      try contradiction.
    + apply IH. exact Hb.
    + exact Hb.
Qed.

Lemma get_status_num_alike (m1 m2 : BoidFlockers) :
  alike m1 m2 ->
  match get_status_num m1, get_status_num m2 with
  | Ok a, Ok b => alike a b
  | Raise e1, Raise e2 => e1 = e2
  | _, _ => False
  end.
Proof.
  destruct m1 as [a1 d1 [l1 s1 t1] sp1 g1 r1].
  destruct m2 as [a2 d2 [l2 s2 t2] sp2 g2 r2].
  unfold alike. simpl. intros (-> & -> & -> & -> & -> & -> & -> & Hl).
  unfold get_status_num. cbn [schedule RandomActivation.agents status_num].
  assert (Hc : count_agents l1 = count_agents l2).
  { unfold count_agents.
    rewrite <- (fold_count_still l1), Hl, fold_count_still. reflexivity. }
  rewrite Hc. destruct (count_agents l2) as [[[s i] r] d].
  destruct (dict_append "susceptible" s d2) as [x1 | e]; cbn [bind];
    [| reflexivity].
  destruct (dict_append "infected" i x1) as [x2 | e]; cbn [bind];
    [| reflexivity].
  destruct (dict_append "recovered" r x2) as [x3 | e]; cbn [bind];
    [| reflexivity].
  destruct (dict_append "removed" d x3) as [x4 | e]; cbn [bind];
    [| reflexivity].
  unfold alike. simpl. repeat split. exact Hl.
Qed.

(** Whatever numpy's global generator holds, the seed and the parameters
    fix the ids, the initial positions and statuses of the agents and the
    first tally: only the initial velocities depend on numpy's state. *)
Lemma init_seed_determines_placement (p : Params) (g : Random.t)
    (n1 n2 : np_random.t) :
  exists m1 a1 m2 a2,
    init p g n1 = Ok (m1, a1) /\ init p g n2 = Ok (m2, a2)
    /\ map Boid.unique_id (RandomActivation.agents (schedule m1))
       = map Boid.unique_id (RandomActivation.agents (schedule m2))
    /\ map Boid.pos (RandomActivation.agents (schedule m1))
       = map Boid.pos (RandomActivation.agents (schedule m2))
    /\ map Boid.status (RandomActivation.agents (schedule m1))
       = map Boid.status (RandomActivation.agents (schedule m2))
    /\ status_num m1 = status_num m2
    /\ random m1 = random m2.
Proof.
  destruct (init_spec p g n1) as (m1 & a1 & _ & _ & H1 & _).
  destruct (init_spec p g n2) as (m2 & a2 & _ & _ & H2 & _).
  exists m1, a1, m2, a2. split; [exact H1 |]. split; [exact H2 |].
  assert (Ha : alike m1 m2).
  { revert H1 H2. unfold init, make_agents. cbn [args].
    set (self := mkModel p _ RandomActivation.empty _ g false).
    assert (H0 : alike self self) by (unfold alike; repeat split).
    pose proof (for_each_make_boid_alike "susceptible"
                  (range0 (population p - 5)) self self n1 n2 H0) as Hs.
    destruct (for_each (make_boid "susceptible") _ (self, n1)) as [[x1 y1] | e1];
      destruct (for_each (make_boid "susceptible") _ (self, n2)) as [[x2 y2] | e2];
      cbn [bind]; try contradiction; try discriminate.
    pose proof (for_each_make_boid_alike "infected"
                  (range (population p - 5) (population p)) x1 x2 y1 y2 Hs) as Hi.
    destruct (for_each (make_boid "infected") _ (x1, y1)) as [[x3 y3] | e3];
      destruct (for_each (make_boid "infected") _ (x2, y2)) as [[x4 y4] | e4];
      cbn [bind fst snd]; try contradiction; try discriminate.
    pose proof (get_status_num_alike x3 x4 Hi) as Hg.
    destruct (get_status_num x3) as [x5 | e5];
      destruct (get_status_num x4) as [x6 | e6];
      cbn [bind fst snd]; try contradiction; try discriminate.
    intros E1 E2. injection E1 as <- _. injection E2 as <- _.
    destruct Hg as (G1 & G2 & G3 & G4 & G5 & G6 & G7 & G8).
    unfold alike. simpl. repeat split; assumption. }
  destruct Ha as (_ & Hd & _ & Hr & _ & _ & _ & Hl).
  split; [| split; [| split; [| split; assumption]]].
  - apply (f_equal (map Boid.unique_id)) in Hl.
    rewrite !map_map in Hl. exact Hl.
  - apply (f_equal (map Boid.pos)) in Hl.
    rewrite !map_map in Hl. exact Hl.
  - apply (f_equal (map Boid.status)) in Hl.
    rewrite !map_map in Hl. exact Hl.
Qed.

(** *** The activation order *)

Lemma swap_Permutation {A : Type} (i j : nat) (x : list A) :
  Random.swap i j x ≡ₚ x.
Proof.
  unfold Random.swap.
  destruct (x !! i) as [a |] eqn:Hi; [| reflexivity].
  destruct (x !! j) as [b |] eqn:Hj; [| reflexivity].
  exact (Permutation_insert_swap x i j a b Hi Hj).
Qed.

Lemma shuffle_from_Permutation {A : Type} (i : nat) :
  forall (x : list A) (g : Random.t), fst (Random.shuffle_from i x g) ≡ₚ x.
Proof.
  induction i as [| i IH]; intros x g; cbn [Random.shuffle_from].
  - reflexivity.
  - destruct (Random.randbelow (S (S i)) g) as [j g'].
    rewrite IH. apply swap_Permutation.
Qed.

(** Each registered key is activated once in a pass: the shuffled keys are
    a permutation of the keys. *)
Lemma shuffle_Permutation {A : Type} (x : list A) (g : Random.t) :
  fst (Random.shuffle x g) ≡ₚ x.
Proof. apply shuffle_from_Permutation. Qed.

(** * Further properties of the model container *)

(** ** How many agents, and which *)

Lemma range_app (a b c : Z) :
  a <= b -> b <= c -> range a b ++ range b c = range a c.
Proof.
  intros Hab Hbc. unfold range.
  replace (Z.to_nat (c - a)) with (Z.to_nat (b - a) + Z.to_nat (c - b))%nat by lia.
  rewrite seq_app, map_app. f_equal. simpl.
  replace (seq (Z.to_nat (b - a)) (Z.to_nat (c - b)))
    with (Nat.add (Z.to_nat (b - a)) <$> seq 0 (Z.to_nat (c - b)))
    by (rewrite fmap_add_seq; f_equal; lia).
  rewrite map_map. apply map_ext. intros k. lia.
Qed.

Lemma status_replicate (st : string) (bs : list Boid.t) :
  Forall (fun b => Boid.status b = st) bs ->
  map Boid.status bs = replicate (length bs) st.
Proof.
  induction 1 as [| b bs Hb _ IH]; simpl; [reflexivity |].
  rewrite Hb, IH. reflexivity.
Qed.

(** X1: whatever the population, the constructor registers
    [max(population, 5)] agents, under pairwise distinct ids: the values
    of [range(population - 5)] followed by those of
    [range(population - 5, population)]. *)
Theorem init_agent_count (p : Params) (g : Random.t) (np : np_random.t) :
  exists m np',
    init p g np = Ok (m, np')
    /\ map Boid.unique_id (RandomActivation.agents (schedule m))
       = range0 (population p - 5) ++ range (population p - 5) (population p)
    /\ NoDup (map Boid.unique_id (RandomActivation.agents (schedule m)))
    /\ length (RandomActivation.agents (schedule m))
       = Z.to_nat (Z.max (population p) 5).
Proof.
  destruct (init_spec p g np)
    as (m & np' & bs1 & bs2 & Hi & _ & _ & _ & Hs & H1 & H2 & _).
  exists m, np'. split; [exact Hi |]. rewrite Hs. simpl.
  pose proof (created_ids _ _ _ _ _ H1) as I1.
  pose proof (created_ids _ _ _ _ _ H2) as I2.
  rewrite map_app, I1, I2. split; [reflexivity |]. split.
  - apply NoDup_app. split; [apply NoDup_range |]. split; [| apply NoDup_range].
    intros i Hi1 Hi2. unfold range0 in Hi1.
    apply elem_of_range in Hi1. apply elem_of_range in Hi2. lia.
  - rewrite <- (length_map Boid.unique_id (bs1 ++ bs2)), map_app, I1, I2.
    rewrite length_app. unfold range0. rewrite !length_range. lia.
Qed.

(** X2: from a population of five on, the ids are [0 .. population - 1]
    in the order of creation, the first [population - 5] agents are
    susceptible and the last five infected. *)
Theorem init_large_population_layout (p : Params) (g : Random.t)
    (np : np_random.t) :
  5 <= population p ->
  exists m np',
    init p g np = Ok (m, np')
    /\ map Boid.unique_id (RandomActivation.agents (schedule m))
       = range0 (population p)
    /\ map Boid.status (RandomActivation.agents (schedule m))
       = replicate (Z.to_nat (population p - 5)) "susceptible"
         ++ replicate 5 "infected".
Proof.
  intros Hn.
  destruct (init_spec p g np)
    as (m & np' & bs1 & bs2 & Hi & _ & _ & _ & Hs & H1 & H2 & _).
  exists m, np'. split; [exact Hi |]. rewrite Hs. simpl.
  rewrite !map_app.
  rewrite (created_ids _ _ _ _ _ H1), (created_ids _ _ _ _ _ H2).
  rewrite (status_replicate _ _ (created_status _ _ _ _ _ H1)).
  rewrite (status_replicate _ _ (created_status _ _ _ _ _ H2)).
  rewrite <- (Forall2_length _ _ _ H1), <- (Forall2_length _ _ _ H2).
  unfold range0. rewrite !length_range. split.
  - apply range_app; lia.
  - replace (Z.to_nat (population p - 5 - 0))
      with (Z.to_nat (population p - 5)) by lia.
    replace (Z.to_nat (population p - (population p - 5))) with 5%nat by lia.
    reflexivity.
Qed.

Lemma init_large_population_layout_witness :
  5 <= population (with_population 8)
  /\ exists m np',
       init (with_population 8) gen_a np_a = Ok (m, np')
       /\ map Boid.unique_id (RandomActivation.agents (schedule m))
          = range0 (population (with_population 8))
       /\ map Boid.status (RandomActivation.agents (schedule m))
          = replicate (Z.to_nat (population (with_population 8) - 5)) "susceptible"
            ++ replicate 5 "infected".
Proof.
  split; [simpl; lia |].
  apply (init_large_population_layout (with_population 8) gen_a np_a).
  simpl; lia.
Defined.

(** ** What get_status_num counts *)

Lemma count_agent_status (c : Z * Z * Z * Z) (a : Boid.t) :
  count_agent c a
  = (fst (fst (fst c)) + count_status "susceptible" [a],
     snd (fst (fst c)) + count_status "infected" [a],
     snd (fst c) + count_status "recovered" [a],
     snd c + count_status "removed" [a]).
Proof.
  destruct c as [[[s i] r] d]. unfold count_agent, count_status. simpl.
  destruct (String.eqb (Boid.status a) "susceptible");
    destruct (String.eqb (Boid.status a) "infected");
    destruct (String.eqb (Boid.status a) "recovered");
    destruct (String.eqb (Boid.status a) "removed");
    simpl; repeat (f_equal; try lia).
Qed.

Lemma count_status_cons (st : string) (a : Boid.t) (l : list Boid.t) :
  count_status st (a :: l) = count_status st [a] + count_status st l.
Proof.
  unfold count_status. simpl.
  destruct (String.eqb (Boid.status a) st); simpl; lia.
Qed.

Lemma fold_count_status (l : list Boid.t) :
  forall s i r d,
    fold_left count_agent l (s, i, r, d)
    = (s + count_status "susceptible" l, i + count_status "infected" l,
       r + count_status "recovered" l, d + count_status "removed" l).
Proof.
  induction l as [| a l IH]; intros s i r d.
  - unfold count_status. simpl. repeat (f_equal; try lia).
  - cbn [fold_left]. rewrite count_agent_status. cbn [fst snd].
    rewrite IH. rewrite !(count_status_cons _ a l).
    repeat (f_equal; try lia).
Qed.

Lemma count_agents_status (l : list Boid.t) :
  count_agents l
  = (count_status "susceptible" l, count_status "infected" l,
     count_status "recovered" l, count_status "removed" l).
Proof. unfold count_agents. rewrite fold_count_status. reflexivity. Qed.

Lemma known_statusb_spec (s : string) :
  known_statusb s = true <-> known_status s.
Proof.
  unfold known_statusb, known_status.
  rewrite !orb_true_iff, !String.eqb_eq. tauto.
Qed.

(** X3: the loop of [get_status_num] computes, for each of the four tags,
    the number of agents whose status is that tag; an agent with any
    other status is counted nowhere, so the four counts sum to the number
    of agents with one of the four tags. *)
Theorem count_agents_per_status (l : list Boid.t) :
  count_agents l
  = (count_status "susceptible" l, count_status "infected" l,
     count_status "recovered" l, count_status "removed" l)
  /\ total (count_agents l)
     = Z.of_nat (length (List.filter (fun a => known_statusb (Boid.status a)) l)).
Proof.
  pose proof (count_agents_status l) as H.
  split; [exact H |]. rewrite H. unfold total. clear H.
  induction l as [| a l IH]; [reflexivity |].
  rewrite !(count_status_cons _ a l). cbn [List.filter].
  assert (Ha : count_status "susceptible" [a] + count_status "infected" [a]
               + count_status "recovered" [a] + count_status "removed" [a]
               = if known_statusb (Boid.status a) then 1 else 0).
  { unfold count_status, known_statusb. simpl.
    destruct (String.eqb_spec (Boid.status a) "susceptible") as [E | _];
      [rewrite E; reflexivity |].
    destruct (String.eqb_spec (Boid.status a) "infected") as [E | _];
      [rewrite E; reflexivity |].
    destruct (String.eqb_spec (Boid.status a) "recovered") as [E | _];
      [rewrite E; reflexivity |].
    destruct (String.eqb (Boid.status a) "removed"); reflexivity. }
  destruct (known_statusb (Boid.status a)); simpl length; lia.
Qed.

Lemma count_status_app (st : string) (l1 l2 : list Boid.t) :
  count_status st (l1 ++ l2) = count_status st l1 + count_status st l2.
Proof.
  unfold count_status. rewrite List.filter_app, length_app. lia.
Qed.

Lemma count_status_all (st st' : string) (bs : list Boid.t) :
  Forall (fun b => Boid.status b = st') bs ->
  count_status st bs
  = if String.eqb st' st then Z.of_nat (length bs) else 0.
Proof.
  unfold count_status. induction 1 as [| b bs Hb _ IH]; simpl.
  - destruct (String.eqb st' st); reflexivity.
  - rewrite Hb. destruct (String.eqb st' st); simpl; lia.
Qed.

(** X4: the tally the constructor records is
    [(max(population - 5, 0), 5, 0, 0)]: five agents are infected whatever
    the population, nobody is recovered or removed. *)
Theorem init_first_tally (p : Params) (g : Random.t) (np : np_random.t) :
  exists m np',
    init p g np = Ok (m, np')
    /\ history m [Z.max (population p - 5) 0] [5] [0] [0].
Proof.
  destruct (init_spec p g np)
    as (m & np' & bs1 & bs2 & Hi & _ & _ & _ & _ & H1 & H2 & Hh).
  exists m, np'. split; [exact Hi |].
  rewrite count_agents_status in Hh. rewrite !count_status_app in Hh.
  rewrite !(count_status_all _ _ _ (created_status _ _ _ _ _ H1)) in Hh.
  rewrite !(count_status_all _ _ _ (created_status _ _ _ _ _ H2)) in Hh.
  rewrite <- (Forall2_length _ _ _ H1), <- (Forall2_length _ _ _ H2) in Hh.
  unfold range0 in Hh. rewrite !length_range in Hh. simpl in Hh.
  replace (Z.max (population p - 5) 0)
    with (Z.of_nat (Z.to_nat (population p - 5 - 0)) + 0) by lia.
  replace 5 with (0 + Z.of_nat (Z.to_nat (population p - (population p - 5))))
    at 2 by lia.
  exact Hh.
Qed.

(** ** get_status_num on any model *)

(** X5: on a model that holds the four series, whatever their lengths,
    [get_status_num] returns; each of the four series gets its count
    appended, every other key of [status_num] keeps its value, and the
    rest of the model is unchanged. *)
Theorem get_status_num_appends (self : BoidFlockers) (hs hi hr hd : list Z) :
  history self hs hi hr hd ->
  exists self',
    get_status_num self = Ok self'
    /\ same_frame self self'
    /\ history self'
         (hs ++ [count_status "susceptible" (RandomActivation.agents (schedule self))])
         (hi ++ [count_status "infected" (RandomActivation.agents (schedule self))])
         (hr ++ [count_status "recovered" (RandomActivation.agents (schedule self))])
         (hd ++ [count_status "removed" (RandomActivation.agents (schedule self))])
    /\ forall k, k ∉ status_keys -> status_num self' !! k = status_num self !! k.
Proof.
  intros (Hs & Hi & Hr & Hd). unfold get_status_num.
  rewrite count_agents_status.
  unfold dict_append. rewrite Hs. cbn [bind].
  rewrite lookup_insert_ne, Hi by discriminate. cbn [bind].
  rewrite !lookup_insert_ne, Hr by discriminate. cbn [bind].
  rewrite !lookup_insert_ne, Hd by discriminate. cbn [bind].
  eexists. split; [reflexivity |]. split.
  - unfold same_frame; simpl. tauto.
  - split.
    + unfold history; simpl. repeat split; simplify_map_eq; reflexivity.
    + intros k Hk. simpl. unfold status_keys in Hk.
      rewrite !not_elem_of_cons in Hk. destruct Hk as (K1 & K2 & K3 & K4 & _).
      rewrite !lookup_insert_ne by congruence. reflexivity.
Qed.

Lemma get_status_num_appends_witness :
  history lone_removed [] [] [] []
  /\ exists self',
       get_status_num lone_removed = Ok self'
       /\ same_frame lone_removed self'
       /\ history self'
            ([] ++ [count_status "susceptible"
                      (RandomActivation.agents (schedule lone_removed))])
            ([] ++ [count_status "infected"
                      (RandomActivation.agents (schedule lone_removed))])
            ([] ++ [count_status "recovered"
                      (RandomActivation.agents (schedule lone_removed))])
            ([] ++ [count_status "removed"
                      (RandomActivation.agents (schedule lone_removed))])
       /\ forall k, k ∉ status_keys ->
                    status_num self' !! k = status_num lone_removed !! k.
Proof.
  assert (Hh : history lone_removed [] [] [] [])
    by (unfold history; repeat split; reflexivity).
  split; [exact Hh |].
  exact (get_status_num_appends lone_removed [] [] [] [] Hh).
Defined.

(** X6: [get_status_num] returns exactly when the four keys are present;
    otherwise it raises [KeyError] for the first of susceptible, infected,
    recovered, removed that is missing. *)
Theorem get_status_num_outcome (self : BoidFlockers) :
  match get_status_num self with
  | Ok _ => Forall (fun k => is_Some (status_num self !! k)) status_keys
  | Raise e =>
      exists pre k post,
        e = KeyError k
        /\ status_keys = pre ++ k :: post
        /\ Forall (fun k' => is_Some (status_num self !! k')) pre
        /\ status_num self !! k = None
  end.
Proof.
  unfold get_status_num. destruct (count_agents _) as [[[s i] r] d].
  unfold dict_append.
  destruct (status_num self !! "susceptible") as [l1 |] eqn:E1; cbn [bind].
  2:{ exists [], "susceptible", ["infected"; "recovered"; "removed"].
      repeat split; [constructor | exact E1]. }
  rewrite lookup_insert_ne by discriminate.
  destruct (status_num self !! "infected") as [l2 |] eqn:E2; cbn [bind].
  2:{ exists ["susceptible"], "infected", ["recovered"; "removed"].
      repeat split; [| exact E2]. repeat constructor. rewrite E1. eauto. }
  rewrite !lookup_insert_ne by discriminate.
  destruct (status_num self !! "recovered") as [l3 |] eqn:E3; cbn [bind].
  2:{ exists ["susceptible"; "infected"], "recovered", ["removed"].
      repeat split; [| exact E3].
      repeat constructor; [rewrite E1 | rewrite E2]; eauto. }
  rewrite !lookup_insert_ne by discriminate.
  destruct (status_num self !! "removed") as [l4 |] eqn:E4; cbn [bind].
  2:{ exists ["susceptible"; "infected"; "recovered"], "removed", [].
      repeat split; [| exact E4].
      repeat constructor; [rewrite E1 | rewrite E2 | rewrite E3]; eauto. }
  unfold status_keys.
  repeat constructor; [rewrite E1 | rewrite E2 | rewrite E3 | rewrite E4]; eauto.
Qed.

(** ** The constructor, step by step *)

(** A loop that returns established every invariant its body keeps. *)
Lemma for_each_invariant {A S : Type} (body : A -> S -> result S)
    (I : S -> Prop) (l : list A) :
  (forall x s s', body x s = Ok s' -> I s -> I s') ->
  forall s s', for_each body l s = Ok s' -> I s -> I s'.
Proof.
  intros Hbody. induction l as [| x l IH]; intros s s' H Hs; cbn [for_each] in H.
  - injection H as <-. exact Hs.
  - destruct (body x s) as [s1 | e] eqn:E; cbn [bind] in H; [| discriminate].
    exact (IH s1 s' H (Hbody x s s1 E Hs)).
Qed.

Lemma get_status_num_frame (self self' : BoidFlockers) :
  get_status_num self = Ok self' -> same_frame self self'.
Proof.
  unfold get_status_num. destruct (count_agents _) as [[[s i] r] d].
  destruct (dict_append "susceptible" s _) as [d1 |]; cbn [bind]; [| discriminate].
  destruct (dict_append "infected" i d1) as [d2 |]; cbn [bind]; [| discriminate].
  destruct (dict_append "recovered" r d2) as [d3 |]; cbn [bind]; [| discriminate].
  destruct (dict_append "removed" d d3) as [d4 |]; cbn [bind]; [| discriminate].
  intros [= <-]. unfold same_frame. simpl. tauto.
Qed.

(** The stages of a constructor call that returned. *)
Lemma init_stages (p : Params) (g : Random.t) (np np' : np_random.t)
    (m : BoidFlockers) :
  init p g np = Ok (m, np') ->
  exists m1 n1 m2 m3,
    for_each (make_boid "susceptible") (range0 (population p - 5))
             (blank_model p g, np) = Ok (m1, n1)
    /\ for_each (make_boid "infected") (range (population p - 5) (population p))
                (m1, n1) = Ok (m2, np')
    /\ get_status_num m2 = Ok m3
    /\ m = set_running true m3.
Proof.
  unfold init, make_agents. cbn [args].
  change (mkModel p _ RandomActivation.empty _ g false) with (blank_model p g).
  destruct (for_each (make_boid "susceptible") _ (blank_model p g, np))
    as [[m1 n1] | e1] eqn:E1; cbn [bind]; [| discriminate].
  destruct (for_each (make_boid "infected") _ (m1, n1))
    as [[m2 n2] | e2] eqn:E2; cbn [bind fst snd]; [| discriminate].
  destruct (get_status_num m2) as [m3 | e3] eqn:E3; cbn [bind fst snd];
    [| discriminate].
  intros [= <- <-]. exists m1, n1, m2, m3.
  split; [reflexivity |]. split; [exact E2 |]. split; [exact E3 | reflexivity].
Qed.

(** One agent costs two words of each generator. *)
Lemma make_boid_draws (st : string) (i : Z) (self self' : BoidFlockers)
    (np np' : np_random.t) :
  make_boid st i (self, np) = Ok (self', np') ->
  random self' = Random.next (Random.next (random self))
  /\ np' = np_random.next (np_random.next np).
Proof.
  unfold make_boid. cbn [Random.random fst snd].
  destruct (np_random.random2 np) as [[r0 r1] n2] eqn:E.
  assert (n2 = np_random.next (np_random.next np))
    by (unfold np_random.random2 in E; simpl in E; congruence).
  subst n2.
  destruct (ContinuousSpace.place_agent _ _ _) as [b | e]; cbn [bind];
    [| discriminate].
  destruct (RandomActivation.add b (schedule self)) as [sc | e]; cbn [bind];
    [| discriminate].
  intros [= <- <-]. split; reflexivity.
Qed.

Lemma for_each_make_boid_draws (st : string) (ids : list Z) :
  forall (self self' : BoidFlockers) (np np' : np_random.t),
    for_each (make_boid st) ids (self, np) = Ok (self', np') ->
    random self' = advance (2 * length ids) (random self)
    /\ np' = np_advance (2 * length ids) np.
Proof.
  induction ids as [| i ids IH]; intros self self' np np' H; cbn [for_each] in H.
  - injection H as <- <-. unfold advance, np_advance.
    destruct (random self), np. simpl. rewrite !Nat.add_0_r. split; reflexivity.
  - destruct (make_boid st i (self, np)) as [[m1 n1] | e] eqn:E; cbn [bind] in H;
      [| discriminate].
    destruct (make_boid_draws _ _ _ _ _ _ E) as [Hr Hn].
    destruct (IH _ _ _ _ H) as [Hr' Hn'].
    rewrite Hr', Hn', Hr, Hn. unfold advance, np_advance. simpl.
    split; f_equal; lia.
Qed.

(** X7: the constructor consumes two words of the model's generator and
    two words of numpy's global generator per agent, and nothing else:
    both generators end [2 * max(population, 5)] words further. *)
Theorem init_consumes_draws (p : Params) (g : Random.t) (np : np_random.t) :
  exists m np',
    init p g np = Ok (m, np')
    /\ random m = advance (2 * Z.to_nat (Z.max (population p) 5)) g
    /\ np' = np_advance (2 * Z.to_nat (Z.max (population p) 5)) np.
Proof.
  destruct (init_spec p g np) as (m & np' & _ & _ & Hi & _).
  exists m, np'. split; [exact Hi |].
  destruct (init_stages _ _ _ _ _ Hi) as (m1 & n1 & m2 & m3 & E1 & E2 & E3 & ->).
  destruct (for_each_make_boid_draws _ _ _ _ _ _ E1) as [R1 N1].
  destruct (for_each_make_boid_draws _ _ _ _ _ _ E2) as [R2 N2].
  destruct (get_status_num_frame _ _ E3) as (_ & _ & _ & R3 & _).
  simpl. rewrite R3, R2, N2, R1, N1. unfold range0.
  rewrite !length_range. unfold advance, np_advance. simpl.
  split; f_equal; lia.
Qed.

(** ** A space of width zero *)

Lemma make_boid_flat (st : string) (i : Z) (s s' : BoidFlockers * np_random.t) :
  make_boid st i s = Ok s' ->
  (ContinuousSpace.x_max (space (fst s)) == 0)%Q
  /\ ContinuousSpace.torus (space (fst s)) = true
  /\ Forall (fun b => fst (Boid.pos b) = None)
            (RandomActivation.agents (schedule (fst s))) ->
  (ContinuousSpace.x_max (space (fst s')) == 0)%Q
  /\ ContinuousSpace.torus (space (fst s')) = true
  /\ Forall (fun b => fst (Boid.pos b) = None)
            (RandomActivation.agents (schedule (fst s'))).
Proof.
  destruct s as [self np]. unfold make_boid. cbn [Random.random fst snd].
  destruct (np_random.random2 np) as [[r0 r1] n2].
  intros H (Hw & Ht & Hall). revert H.
  unfold ContinuousSpace.place_agent, ContinuousSpace.torus_adj.
  set (x := (_ * ContinuousSpace.x_max (space self))%Q).
  set (y := (_ * ContinuousSpace.y_max (space self))%Q).
  assert (Hx : (x == 0)%Q) by (unfold x; rewrite Hw; ring).
  assert (Hout : ContinuousSpace.out_of_bounds (space self) (x, y) = true).
  { unfold ContinuousSpace.out_of_bounds.
    assert (E : Qle_bool (ContinuousSpace.x_max (space self)) x = true).
    { apply Qle_bool_iff. rewrite Hw, Hx. apply Qle_refl. }
    rewrite E. rewrite orb_true_r. reflexivity. }
  rewrite Hout, Ht. cbn [negb bind fst snd].
  unfold RandomActivation.add.
  destruct (RandomActivation.has_key _ _); cbn [bind]; [discriminate |].
  intros [= <-]. simpl. split; [exact Hw |]. split; [exact Ht |].
  apply Forall_app. split; [exact Hall |]. constructor; [| constructor].
  simpl. unfold ContinuousSpace.fmod.
  assert (E0 : Qeq_bool (ContinuousSpace.x_max (space self)) 0 = true)
    by (apply Qeq_bool_iff; exact Hw).
  rewrite E0. reflexivity.
Qed.

(** X8: the constructor accepts a width of zero, and then every agent
    starts with [nan] as its x coordinate: [random() * 0] is out of the
    bounds of the empty interval and is wrapped by a remainder by zero. *)
Theorem init_zero_width_nan (p : Params) (g : Random.t) (np : np_random.t) :
  (width p == 0)%Q ->
  exists m np',
    init p g np = Ok (m, np')
    /\ Forall (fun b => fst (Boid.pos b) = None)
              (RandomActivation.agents (schedule m)).
Proof.
  intros Hw.
  destruct (init_spec p g np) as (m & np' & _ & _ & Hi & _).
  exists m, np'. split; [exact Hi |].
  destruct (init_stages _ _ _ _ _ Hi) as (m1 & n1 & m2 & m3 & E1 & E2 & E3 & ->).
  pose proof (for_each_invariant (make_boid "susceptible") _ _
                (make_boid_flat "susceptible") _ _ E1) as I1.
  pose proof (for_each_invariant (make_boid "infected") _ _
                (make_boid_flat "infected") _ _ E2) as I2.
  destruct (get_status_num_frame _ _ E3) as (_ & S3 & _).
  simpl. rewrite S3. apply I2, I1. simpl.
  split; [exact Hw |]. split; [reflexivity | constructor].
Qed.

Lemma init_zero_width_nan_witness :
  (width flat_params == 0)%Q
  /\ exists m np',
       init flat_params gen_a np_a = Ok (m, np')
       /\ Forall (fun b => fst (Boid.pos b) = None)
                 (RandomActivation.agents (schedule m)).
Proof.
  split; [reflexivity |].
  apply (init_zero_width_nan flat_params gen_a np_a). reflexivity.
Defined.

(** * Properties of the drawing methods *)

Set Warnings "-clear-no-such-hyp".

Lemma draw_bind_Drawn {A B : Type} (m : drawn A) (f : A -> drawn B) (b : B) :
  draw_bind m f = Drawn b -> exists a, m = Drawn a /\ f a = Drawn b.
Proof.
  destruct m as [a | e]; simpl; [| discriminate]. intros H. exists a. auto.
Qed.

Lemma draw_each_app {A S : Type} (body : A -> S -> drawn S) (l1 l2 : list A) :
  forall s,
    draw_each body (l1 ++ l2) s
    = draw_bind (draw_each body l1 s) (draw_each body l2).
Proof.
  induction l1 as [| x l1 IH]; intros s; simpl; [reflexivity |].
  destruct (body x s) as [s1 | e]; simpl; [apply IH | reflexivity].
Qed.

(** ** The colour variable *)

Lemma pick_color_known (color : option string) (st : string) :
  known_status st -> pick_color color st = Some (status_color st).
Proof.
  intros [H | [H | [H | H]]]; subst st; reflexivity.
Qed.

Lemma pick_color_unknown (color : option string) (st : string) :
  ~ known_status st -> pick_color color st = color.
Proof.
  intros H. unfold pick_color, known_status in *.
  destruct (String.eqb_spec st "susceptible"); [tauto |].
  destruct (String.eqb_spec st "infected"); [tauto |].
  destruct (String.eqb_spec st "recovered"); [tauto |].
  destruct (String.eqb_spec st "removed"); [tauto |]. reflexivity.
Qed.

Lemma known_status_dec (st : string) : known_status st \/ ~ known_status st.
Proof.
  destruct (known_statusb st) eqn:E.
  - left. apply known_statusb_spec. exact E.
  - right. intros H. apply known_statusb_spec in H. congruence.
Qed.

Lemma pick_color_bound (c : string) (st : string) :
  exists c', pick_color (Some c) st = Some c'.
Proof.
  destruct (known_status_dec st) as [H | H].
  - rewrite (pick_color_known _ _ H). eauto.
  - rewrite (pick_color_unknown _ _ H). eauto.
Qed.

(** ** The loop of draw_initial *)

Lemma draw_agent_step (vis : Q) (a : Boid.t) (color : option string)
    (dp : gmap Z Scatter.t) (dv : gmap Z Circle.t) :
  draw_agent vis a (color, dp, dv)
  = match pick_color color (Boid.status a) with
    | Some c =>
        Drawn (Some c,
               <[Boid.unique_id a := scatter_of a c]> dp,
               <[Boid.unique_id a := circle_of vis a]> dv)
    | None => Fails (UnboundLocalError "agent_color")
    end.
Proof.
  unfold draw_agent, scatter_of, circle_of. destruct (Boid.pos a) as [x y].
  destruct (pick_color color (Boid.status a)); reflexivity.
Qed.

(** Once the colour variable is bound the loop cannot fail. *)
Lemma draw_agents_bound (vis : Q) (l : list Boid.t) :
  forall c dp dv,
    exists c' dp' dv',
      draw_each (draw_agent vis) l (Some c, dp, dv) = Drawn (Some c', dp', dv').
Proof.
  induction l as [| a l IH]; intros c dp dv; cbn [draw_each].
  - eauto.
  - rewrite draw_agent_step.
    destruct (pick_color_bound c (Boid.status a)) as [c1 ->]. cbn [draw_bind].
    apply IH.
Qed.

(** What a loop that returned has written: an entry under the id of every
    agent, nothing under any other key, and circles of the given radius. *)
Lemma draw_agents_effect (vis : Q) (l : list Boid.t) :
  forall color dp dv color' dp' dv',
    draw_each (draw_agent vis) l (color, dp, dv) = Drawn (color', dp', dv') ->
    dom dp' = dom dp ∪ list_to_set (map Boid.unique_id l)
    /\ dom dv' = dom dv ∪ list_to_set (map Boid.unique_id l)
    /\ (forall k, k ∉ map Boid.unique_id l ->
                  dp' !! k = dp !! k /\ dv' !! k = dv !! k)
    /\ (map_Forall (fun _ c => Circle.radius c = vis) dv ->
        map_Forall (fun _ c => Circle.radius c = vis) dv').
Proof.
  induction l as [| a l IH]; intros color dp dv color' dp' dv' H;
    cbn [draw_each] in H.
  - injection H as E1 E2 E3. subst. simpl.
    split; [set_solver |]. split; [set_solver |]. split; auto.
  - rewrite draw_agent_step in H.
    destruct (pick_color color (Boid.status a)) as [c |]; cbn [draw_bind] in H;
      [| discriminate].
    destruct (IH _ _ _ _ _ _ H) as (D1 & D2 & Hk & Hr).
    rewrite D1, D2, !dom_insert_L. cbn [map list_to_set].
    split; [set_solver |]. split; [set_solver |]. split.
    + intros k Hn. apply not_elem_of_cons in Hn as [Hne Hn].
      destruct (Hk k Hn) as [-> ->].
      rewrite !lookup_insert_ne by congruence. auto.
    + intros Hall. apply Hr. apply map_Forall_insert_2; [reflexivity | exact Hall].
Qed.

(** The entries of the agents whose status is one of the four tags. *)
Lemma draw_agents_known (vis : Q) (l : list Boid.t) :
  forall color dp dv color' dp' dv',
    draw_each (draw_agent vis) l (color, dp, dv) = Drawn (color', dp', dv') ->
    NoDup (map Boid.unique_id l) ->
    forall a, a ∈ l -> known_status (Boid.status a) ->
      dp' !! Boid.unique_id a = Some (scatter_of a (status_color (Boid.status a)))
      /\ dv' !! Boid.unique_id a = Some (circle_of vis a).
Proof.
  induction l as [| b l IH]; intros color dp dv color' dp' dv' H Hnd a Ha Hk.
  - inversion Ha.
  - cbn [draw_each] in H. rewrite draw_agent_step in H.
    destruct (pick_color color (Boid.status b)) as [c |] eqn:Ec;
      cbn [draw_bind] in H; [| discriminate].
    cbn [map] in Hnd. apply NoDup_cons in Hnd as [Hb Hnd].
    apply elem_of_cons in Ha as [-> | Ha].
    + destruct (draw_agents_effect _ _ _ _ _ _ _ _ H) as (_ & _ & Hother & _).
      destruct (Hother _ Hb) as [-> ->].
      rewrite !lookup_insert_eq.
      rewrite (pick_color_known _ _ Hk) in Ec. injection Ec as <-. auto.
    + exact (IH _ _ _ _ _ _ H Hnd a Ha Hk).
Qed.

Lemma draw_initial_inv (self : BoidFlockers) (v0 v : View.t) :
  draw_initial self v0 = Drawn v ->
  exists color dp dv,
    draw_each (draw_agent (vision (args self)))
              (RandomActivation.agents (schedule self)) (None, ∅, ∅)
    = Drawn (color, dp, dv)
    /\ v = View.mk (Some (title_of self)) (Some dp) (Some dv)
                   (Some (0%Q, width (args self)))
                   (Some (0%Q, height (args self))) (Some "equal").
Proof.
  unfold draw_initial. intros H.
  apply draw_bind_Drawn in H as ([[color dp] dv] & Hl & Hv).
  injection Hv as <-. eauto.
Qed.

(** X9: [draw_initial] returns exactly when the scheduler is empty or the
    status of its first agent is one of the four tags; otherwise it
    raises [UnboundLocalError] for [agent_color], and for nothing else. *)
Theorem draw_initial_outcome (self : BoidFlockers) (v0 : View.t) :
  match draw_initial self v0 with
  | Drawn _ =>
      RandomActivation.agents (schedule self) = []
      \/ exists a l, RandomActivation.agents (schedule self) = a :: l
                     /\ known_status (Boid.status a)
  | Fails e =>
      e = UnboundLocalError "agent_color"
      /\ exists a l, RandomActivation.agents (schedule self) = a :: l
                     /\ ~ known_status (Boid.status a)
  end.
Proof.
  unfold draw_initial.
  destruct (RandomActivation.agents (schedule self)) as [| a l]; cbn [draw_each].
  - simpl. left. reflexivity.
  - rewrite draw_agent_step.
    destruct (known_status_dec (Boid.status a)) as [H | H].
    + rewrite (pick_color_known _ _ H). cbn [draw_bind].
      destruct (draw_agents_bound (vision (args self)) l
                  (status_color (Boid.status a))
                  (<[Boid.unique_id a := scatter_of a (status_color (Boid.status a))]> ∅)
                  (<[Boid.unique_id a := circle_of (vision (args self)) a]> ∅))
        as (c' & dp' & dv' & ->).
      simpl. right. eauto.
    + rewrite (pick_color_unknown _ _ H). simpl. split; [reflexivity |]. eauto.
Qed.

(** X10: when the ids are distinct and [draw_initial] returns, the two
    dictionaries have exactly the ids of the agents as keys, and every
    agent whose status is one of the four tags has a scatter at its
    position in the colour of its status (green, red, blue, black) and a
    dashed circle around its position whose radius is the vision of the
    model; the title shows the time and the axes span the space. *)
Theorem draw_initial_draws_agents (self : BoidFlockers) (v0 v : View.t) :
  NoDup (agent_ids self) ->
  draw_initial self v0 = Drawn v ->
  exists dp dv,
    v = View.mk (Some (title_of self)) (Some dp) (Some dv)
                (Some (0%Q, width (args self)))
                (Some (0%Q, height (args self))) (Some "equal")
    /\ dom dp = list_to_set (agent_ids self)
    /\ dom dv = list_to_set (agent_ids self)
    /\ forall a, a ∈ RandomActivation.agents (schedule self) ->
         known_status (Boid.status a) ->
         dp !! Boid.unique_id a
         = Some (Scatter.mk (Boid.pos a) (status_color (Boid.status a)) "face" 10 2)
         /\ dv !! Boid.unique_id a
            = Some (Circle.mk (Boid.pos a) (vision (args self))
                              "lightgrey" "None" "--" 1).
Proof.
  intros Hnd H.
  destruct (draw_initial_inv _ _ _ H) as (color & dp & dv & Hl & ->).
  exists dp, dv. split; [reflexivity |].
  destruct (draw_agents_effect _ _ _ _ _ _ _ _ Hl) as (D1 & D2 & _).
  rewrite D1, D2, !dom_empty_L. unfold agent_ids.
  split; [set_solver |]. split; [set_solver |].
  intros a Ha Hk. exact (draw_agents_known _ _ _ _ _ _ _ _ Hl Hnd a Ha Hk).
Qed.

Lemma odd_view_drawn : draw_initial odd_model View.blank = Drawn odd_view.
Proof. vm_compute. reflexivity. Qed.

(** X11: the colour variable of the loop survives from one agent to the
    next: an agent whose status is none of the four tags is drawn in the
    colour of the agent before it. *)
Theorem draw_initial_stale_color (self : BoidFlockers) (v0 v : View.t)
    (pre post : list Boid.t) (a b : Boid.t) :
  RandomActivation.agents (schedule self) = pre ++ a :: b :: post ->
  NoDup (agent_ids self) ->
  known_status (Boid.status a) ->
  ~ known_status (Boid.status b) ->
  draw_initial self v0 = Drawn v ->
  exists dp,
    View.agent_pos_lst v = Some dp
    /\ dp !! Boid.unique_id b
       = Some (Scatter.mk (Boid.pos b) (status_color (Boid.status a)) "face" 10 2).
Proof.
  intros Hl Hnd Ha Hb H.
  destruct (draw_initial_inv _ _ _ H) as (color & dp & dv & Hloop & ->).
  exists dp. split; [reflexivity |].
  unfold agent_ids in Hnd. rewrite Hl in Hloop, Hnd.
  rewrite draw_each_app in Hloop.
  apply draw_bind_Drawn in Hloop as ([[c1 dp1] dv1] & _ & Hrest).
  cbn [draw_each] in Hrest. rewrite draw_agent_step in Hrest.
  rewrite (pick_color_known _ _ Ha) in Hrest. cbn [draw_bind] in Hrest.
  rewrite draw_agent_step in Hrest.
  rewrite (pick_color_unknown _ _ Hb) in Hrest. cbn [draw_bind] in Hrest.
  destruct (draw_agents_effect _ _ _ _ _ _ _ _ Hrest) as (_ & _ & Hother & _).
  rewrite map_app in Hnd. cbn [map] in Hnd.
  apply NoDup_app in Hnd as (_ & _ & Hnd).
  apply NoDup_cons in Hnd as (_ & Hnd). apply NoDup_cons in Hnd as (Hnb & _).
  destruct (Hother _ Hnb) as [-> _]. rewrite lookup_insert_eq. reflexivity.
Qed.

Lemma draw_initial_stale_color_witness :
  RandomActivation.agents (schedule odd_model)
  = [] ++ Boid.mk 0 (Some 1, Some 1)%Q 1 (1, 0)%Q 10 2 "infected" 0 0.1 0.3
                  0.025 0.25 0.04
       :: Boid.mk 1 (Some 2, Some 2)%Q 1 (1, 0)%Q 10 2 "immune" 0 0.1 0.3
                  0.025 0.25 0.04
       :: [Boid.mk 2 (Some 3, Some 3)%Q 1 (1, 0)%Q 10 2 "removed" 0 0.1 0.3
                   0.025 0.25 0.04]
  /\ NoDup (agent_ids odd_model)
  /\ known_status "infected"
  /\ ~ known_status "immune"
  /\ draw_initial odd_model View.blank = Drawn odd_view
  /\ exists dp,
       View.agent_pos_lst odd_view = Some dp
       /\ dp !! 1 = Some (Scatter.mk (Some 2, Some 2)%Q "red" "face" 10 2).
Proof.
  assert (Hnd : NoDup (agent_ids odd_model)).
  { unfold agent_ids. simpl. repeat constructor; set_solver. }
  assert (Ha : known_status "infected") by (right; left; reflexivity).
  assert (Hb : ~ known_status "immune")
    by (intros [H | [H | [H | H]]]; discriminate).
  split; [reflexivity |]. split; [exact Hnd |]. split; [exact Ha |].
  split; [exact Hb |]. split; [exact odd_view_drawn |].
  exact (draw_initial_stale_color odd_model View.blank odd_view [] _ _ _
           eq_refl Hnd Ha Hb odd_view_drawn).
Defined.

Lemma draw_initial_draws_agents_witness :
  NoDup (agent_ids odd_model)
  /\ draw_initial odd_model View.blank = Drawn odd_view
  /\ exists dp dv,
       odd_view
       = View.mk (Some (title_of odd_model)) (Some dp) (Some dv)
                 (Some (0%Q, width (args odd_model)))
                 (Some (0%Q, height (args odd_model))) (Some "equal")
       /\ dom dp = list_to_set (agent_ids odd_model)
       /\ dom dv = list_to_set (agent_ids odd_model)
       /\ forall a, a ∈ RandomActivation.agents (schedule odd_model) ->
            known_status (Boid.status a) ->
            dp !! Boid.unique_id a
            = Some (Scatter.mk (Boid.pos a) (status_color (Boid.status a))
                               "face" 10 2)
            /\ dv !! Boid.unique_id a
               = Some (Circle.mk (Boid.pos a) (vision (args odd_model))
                                 "lightgrey" "None" "--" 1).
Proof.
  assert (Hnd : NoDup (agent_ids odd_model)).
  { unfold agent_ids. simpl. repeat constructor; set_solver. }
  split; [exact Hnd |]. split; [exact odd_view_drawn |].
  exact (draw_initial_draws_agents odd_model View.blank odd_view Hnd
           odd_view_drawn).
Defined.

(** ** The loops of draw_succesive *)

Lemma move_artists_step (a : Boid.t) (dp : gmap Z Scatter.t)
    (dv : gmap Z Circle.t) (s0 : Scatter.t) (c0 : Circle.t) :
  dp !! Boid.unique_id a = Some s0 ->
  dv !! Boid.unique_id a = Some c0 ->
  move_artists a (Some dp, Some dv)
  = Drawn (Some (<[Boid.unique_id a := Scatter.set_offsets (Boid.pos a) s0]> dp),
           Some (<[Boid.unique_id a := Circle.set_center (Boid.pos a) c0]> dv)).
Proof.
  intros Hs Hc. unfold move_artists, artist_get, artist_set.
  rewrite Hs, Hc. reflexivity.
Qed.

Lemma recolor_artists_step (a : Boid.t) (color : option string) (c : string)
    (dp : gmap Z Scatter.t) (dv : gmap Z Circle.t) (s0 : Scatter.t)
    (c0 : Circle.t) :
  pick_color color (Boid.status a) = Some c ->
  dp !! Boid.unique_id a = Some s0 ->
  dv !! Boid.unique_id a = Some c0 ->
  recolor_artists a (color, Some dp, Some dv)
  = Drawn (Some c,
           Some (<[Boid.unique_id a :=
                     Scatter.mk (Boid.pos a) c c (Scatter.s s0) (Scatter.zorder s0)]> dp),
           Some (<[Boid.unique_id a := Circle.set_center (Boid.pos a) c0]> dv)).
Proof.
  intros Hc Hs Hv. unfold recolor_artists, artist_get, artist_set.
  rewrite Hc, Hs, Hv. cbn [draw_bind fmap option_fmap option_map read_color].
  rewrite !lookup_insert_eq. cbn [draw_bind].
  rewrite !lookup_insert_eq. cbn [draw_bind].
  rewrite !insert_insert_eq. reflexivity.
Qed.

(** The agents whose id is a key of both dictionaries. *)
Lemma move_artists_all (l : list Boid.t) :
  forall (dp : gmap Z Scatter.t) (dv : gmap Z Circle.t),
    Forall (fun a => Boid.unique_id a ∈ dom dp /\ Boid.unique_id a ∈ dom dv) l ->
    exists dp' dv',
      draw_each move_artists l (Some dp, Some dv) = Drawn (Some dp', Some dv')
      /\ dom dp' = dom dp /\ dom dv' = dom dv
      /\ forall r, map_Forall (fun _ c => Circle.radius c = r) dv ->
                   map_Forall (fun _ c => Circle.radius c = r) dv'.
Proof.
  induction l as [| a l IH]; intros dp dv H; cbn [draw_each].
  - exists dp, dv. auto.
  - apply Forall_cons in H as [[Hp Hv] H].
    apply elem_of_dom in Hp as [s0 Hs]. apply elem_of_dom in Hv as [c0 Hc].
    rewrite (move_artists_step _ _ _ _ _ Hs Hc). cbn [draw_bind].
    destruct (IH (<[Boid.unique_id a := Scatter.set_offsets (Boid.pos a) s0]> dp)
                 (<[Boid.unique_id a := Circle.set_center (Boid.pos a) c0]> dv))
      as (dp' & dv' & Hrun & D1 & D2 & Hr).
    { eapply Forall_impl; [exact H |]. intros b [Hb1 Hb2].
      rewrite !dom_insert_L. set_solver. }
    exists dp', dv'. split; [exact Hrun |].
    rewrite D1, D2, !dom_insert_L.
    assert (Boid.unique_id a ∈ dom dp) by (apply elem_of_dom; eauto).
    assert (Boid.unique_id a ∈ dom dv) by (apply elem_of_dom; eauto).
    split; [set_solver |]. split; [set_solver |].
    intros r Hall. apply Hr. apply map_Forall_insert_2; [| exact Hall].
    exact (Hall _ _ Hc).
Qed.

Lemma recolor_artists_all (l : list Boid.t) :
  forall (color : option string) (dp : gmap Z Scatter.t) (dv : gmap Z Circle.t),
    Forall (fun a => known_status (Boid.status a)) l ->
    Forall (fun a => Boid.unique_id a ∈ dom dp /\ Boid.unique_id a ∈ dom dv) l ->
    exists color' dp' dv',
      draw_each recolor_artists l (color, Some dp, Some dv)
      = Drawn (color', Some dp', Some dv')
      /\ dom dp' = dom dp /\ dom dv' = dom dv
      /\ (forall r, map_Forall (fun _ c => Circle.radius c = r) dv ->
                    map_Forall (fun _ c => Circle.radius c = r) dv')
      /\ (forall k, k ∉ map Boid.unique_id l ->
                    dp' !! k = dp !! k /\ dv' !! k = dv !! k)
      /\ (NoDup (map Boid.unique_id l) ->
          forall a, a ∈ l ->
            exists s c,
              dp' !! Boid.unique_id a = Some s
              /\ Scatter.offsets s = Boid.pos a
              /\ Scatter.facecolors s = status_color (Boid.status a)
              /\ Scatter.edgecolors s = status_color (Boid.status a)
              /\ dv' !! Boid.unique_id a = Some c
              /\ Circle.center c = Boid.pos a).
Proof.
  induction l as [| a l IH]; intros color dp dv Hk H; cbn [draw_each].
  - exists color, dp, dv. repeat split; auto. intros _ a Ha. inversion Ha.
  - apply Forall_cons in Hk as [Hka Hk]. apply Forall_cons in H as [[Hp Hv] H].
    pose proof Hp as Hp'. pose proof Hv as Hv'.
    apply elem_of_dom in Hp as [s0 Hs]. apply elem_of_dom in Hv as [c0 Hc].
    rewrite (recolor_artists_step _ _ _ _ _ _ _
               (pick_color_known color _ Hka) Hs Hc). cbn [draw_bind].
    set (sc := status_color (Boid.status a)).
    set (dp1 := <[Boid.unique_id a :=
                    Scatter.mk (Boid.pos a) sc sc (Scatter.s s0) (Scatter.zorder s0)]> dp).
    set (dv1 := <[Boid.unique_id a := Circle.set_center (Boid.pos a) c0]> dv).
    destruct (IH (Some sc) dp1 dv1 Hk) as (c' & dp' & dv' & Hrun & D1 & D2 & Hr & Ho & Hall).
    { eapply Forall_impl; [exact H |]. intros b [Hb1 Hb2].
      unfold dp1, dv1. rewrite !dom_insert_L. set_solver. }
    exists c', dp', dv'. split; [exact Hrun |].
    rewrite D1, D2. unfold dp1, dv1. rewrite !dom_insert_L.
    split; [set_solver |]. split; [set_solver |]. split.
    { intros r Hf. apply Hr. apply map_Forall_insert_2; [| exact Hf].
      exact (Hf _ _ Hc). }
    split.
    { intros k Hn. cbn [map] in Hn. apply not_elem_of_cons in Hn as [Hne Hn].
      destruct (Ho k Hn) as [-> ->]. unfold dp1, dv1.
      rewrite !lookup_insert_ne by congruence. auto. }
    intros Hnd b Hb. cbn [map] in Hnd. apply NoDup_cons in Hnd as [Hna Hnd].
    apply elem_of_cons in Hb as [-> | Hb].
    + destruct (Ho _ Hna) as [-> ->]. unfold dp1, dv1.
      rewrite !lookup_insert_eq. eexists _, _. repeat split.
    + exact (Hall Hnd b Hb).
Qed.

(** The redraw that follows a first drawing of the same agents. *)
Lemma draw_succesive_follows (self self' : BoidFlockers)
    (v0 v : View.t) :
  draw_initial self v0 = Drawn v ->
  agent_ids self' = agent_ids self ->
  NoDup (agent_ids self') ->
  Forall (fun a => known_status (Boid.status a))
         (RandomActivation.agents (schedule self')) ->
  exists dp dv,
    draw_succesive self' v
    = Drawn (View.mk (Some (title_of self')) (Some dp) (Some dv)
                     (View.xlim v) (View.ylim v) (View.aspect v))
    /\ dom dp = list_to_set (agent_ids self)
    /\ dom dv = list_to_set (agent_ids self)
    /\ forall a, a ∈ RandomActivation.agents (schedule self') ->
         exists s c,
           dp !! Boid.unique_id a = Some s
           /\ Scatter.offsets s = Boid.pos a
           /\ Scatter.facecolors s = status_color (Boid.status a)
           /\ Scatter.edgecolors s = status_color (Boid.status a)
           /\ dv !! Boid.unique_id a = Some c
           /\ Circle.center c = Boid.pos a
           /\ Circle.radius c = vision (args self).
Proof.
  intros H Hids Hnd Hk.
  destruct (draw_initial_inv _ _ _ H) as (color & dp0 & dv0 & Hloop & ->).
  destruct (draw_agents_effect _ _ _ _ _ _ _ _ Hloop) as (D1 & D2 & _ & Hrad).
  rewrite dom_empty_L in D1. rewrite dom_empty_L in D2.
  assert (E1 : dom dp0 = list_to_set (agent_ids self))
    by (rewrite D1; unfold agent_ids; set_solver).
  assert (E2 : dom dv0 = list_to_set (agent_ids self))
    by (rewrite D2; unfold agent_ids; set_solver).
  assert (Hin : Forall (fun a => Boid.unique_id a ∈ dom dp0
                                 /\ Boid.unique_id a ∈ dom dv0)
                       (RandomActivation.agents (schedule self'))).
  { apply Forall_forall. intros a Ha. rewrite E1, E2, <- Hids.
    unfold agent_ids. rewrite elem_of_list_to_set.
    split; apply list_elem_of_fmap; eauto. }
  destruct (move_artists_all _ dp0 dv0 Hin) as (dp1 & dv1 & Hm & M1 & M2 & Mr).
  assert (Hin1 : Forall (fun a => Boid.unique_id a ∈ dom dp1
                                  /\ Boid.unique_id a ∈ dom dv1)
                        (RandomActivation.agents (schedule self'))).
  { rewrite M1, M2. exact Hin. }
  destruct (recolor_artists_all _ None dp1 dv1 Hk Hin1)
    as (c2 & dp2 & dv2 & Hr & R1 & R2 & Rr & _ & Rall).
  exists dp2, dv2. split.
  { unfold draw_succesive. cbn [View.text View.agent_pos_lst View.agent_vision_lst
                                 draw_bind].
    rewrite Hm. cbn [draw_bind fst snd]. rewrite Hr. reflexivity. }
  rewrite R1, R2, M1, M2. split; [exact E1 |]. split; [exact E2 |].
  intros a Ha.
  destruct (Rall Hnd a Ha) as (s & c & Hs & Ho & Hf & He & Hc & Hce).
  exists s, c. repeat split; try assumption.
  assert (Hall : map_Forall (fun _ c => Circle.radius c = vision (args self)) dv2).
  { apply Rr, Mr, Hrad. apply map_Forall_empty. }
  exact (Hall _ _ Hc).
Qed.

(** X12: after [draw_initial], [draw_succesive] on any later state of the
    model with the same agents (the same distinct ids, every status one of
    the four tags) returns; it keeps the keys of both dictionaries and
    leaves every agent with a scatter at its current position, filled and
    edged in the colour of its current status, and a circle centred on
    that position with the radius given by [draw_initial]; the title
    shows the current time. *)
Theorem draw_succesive_after_draw_initial (self self' : BoidFlockers)
    (v0 v : View.t) :
  draw_initial self v0 = Drawn v ->
  agent_ids self' = agent_ids self ->
  NoDup (agent_ids self') ->
  Forall (fun a => known_status (Boid.status a))
         (RandomActivation.agents (schedule self')) ->
  exists dp dv,
    draw_succesive self' v
    = Drawn (View.mk (Some (title_of self')) (Some dp) (Some dv)
                     (View.xlim v) (View.ylim v) (View.aspect v))
    /\ dom dp = list_to_set (agent_ids self)
    /\ dom dv = list_to_set (agent_ids self)
    /\ forall a, a ∈ RandomActivation.agents (schedule self') ->
         exists s c,
           dp !! Boid.unique_id a = Some s
           /\ Scatter.offsets s = Boid.pos a
           /\ Scatter.facecolors s = status_color (Boid.status a)
           /\ Scatter.edgecolors s = status_color (Boid.status a)
           /\ dv !! Boid.unique_id a = Some c
           /\ Circle.center c = Boid.pos a
           /\ Circle.radius c = vision (args self).
Proof. exact (draw_succesive_follows self self' v0 v). Qed.

Lemma draw_succesive_after_draw_initial_witness :
  draw_initial odd_model View.blank = Drawn odd_view
  /\ agent_ids odd_model_later = agent_ids odd_model
  /\ NoDup (agent_ids odd_model_later)
  /\ Forall (fun a => known_status (Boid.status a))
            (RandomActivation.agents (schedule odd_model_later))
  /\ exists dp dv,
       draw_succesive odd_model_later odd_view
       = Drawn (View.mk (Some (title_of odd_model_later)) (Some dp) (Some dv)
                        (View.xlim odd_view) (View.ylim odd_view)
                        (View.aspect odd_view))
       /\ dom dp = list_to_set (agent_ids odd_model)
       /\ dom dv = list_to_set (agent_ids odd_model)
       /\ forall a, a ∈ RandomActivation.agents (schedule odd_model_later) ->
            exists s c,
              dp !! Boid.unique_id a = Some s
              /\ Scatter.offsets s = Boid.pos a
              /\ Scatter.facecolors s = status_color (Boid.status a)
              /\ Scatter.edgecolors s = status_color (Boid.status a)
              /\ dv !! Boid.unique_id a = Some c
              /\ Circle.center c = Boid.pos a
              /\ Circle.radius c = vision (args odd_model).
Proof.
  assert (Hnd : NoDup (agent_ids odd_model_later)).
  { unfold agent_ids. simpl. repeat constructor; set_solver. }
  assert (Hk : Forall (fun a => known_status (Boid.status a))
                      (RandomActivation.agents (schedule odd_model_later))).
  { simpl. constructor; [| constructor; [| constructor; [| constructor]]];
      unfold known_status; simpl; auto 6. }
  split; [exact odd_view_drawn |]. split; [reflexivity |].
  split; [exact Hnd |]. split; [exact Hk |].
  exact (draw_succesive_after_draw_initial odd_model odd_model_later
           View.blank odd_view odd_view_drawn eq_refl Hnd Hk).
Defined.

(** X13: [draw_succesive] raises [KeyError] for the id of the first agent
    of the scheduler that has no scatter in [agent_pos_lst], which is what
    happens to an agent registered after [draw_initial]. *)
Theorem draw_succesive_missing_agent (self : BoidFlockers) (v : View.t)
    (title : string) (dp : gmap Z Scatter.t) (dv : gmap Z Circle.t)
    (pre post : list Boid.t) (a : Boid.t) :
  View.text v = Some title ->
  View.agent_pos_lst v = Some dp ->
  View.agent_vision_lst v = Some dv ->
  RandomActivation.agents (schedule self) = pre ++ a :: post ->
  Forall (fun b => Boid.unique_id b ∈ dom dp /\ Boid.unique_id b ∈ dom dv) pre ->
  Boid.unique_id a ∉ dom dp ->
  draw_succesive self v = Fails (MissingAgent (Boid.unique_id a)).
Proof.
  intros Ht Hp Hv Hl Hpre Ha. unfold draw_succesive.
  rewrite Ht, Hp, Hv, Hl. cbn [draw_bind].
  rewrite draw_each_app.
  destruct (move_artists_all pre dp dv Hpre) as (dp1 & dv1 & -> & D1 & _).
  cbn [draw_bind draw_each]. unfold move_artists at 1, artist_get.
  rewrite <- D1 in Ha. apply not_elem_of_dom in Ha. rewrite Ha. reflexivity.
Qed.

Lemma draw_succesive_missing_agent_witness :
  View.text odd_view = Some "t=000"
  /\ (exists dp dv,
        View.agent_pos_lst odd_view = Some dp
        /\ View.agent_vision_lst odd_view = Some dv
        /\ Forall (fun b => Boid.unique_id b ∈ dom dp /\ Boid.unique_id b ∈ dom dv)
                  (RandomActivation.agents (schedule odd_model))
        /\ 7 ∉ dom dp)
  /\ draw_succesive odd_model_grown odd_view = Fails (MissingAgent 7).
Proof.
  destruct (draw_initial_inv _ _ _ odd_view_drawn)
    as (color & dp & dv & Hloop & Hv).
  destruct (draw_agents_effect _ _ _ _ _ _ _ _ Hloop) as (D1 & D2 & _).
  rewrite dom_empty_L in D1. rewrite dom_empty_L in D2. simpl in D1, D2.
  assert (Hpre : Forall (fun b => Boid.unique_id b ∈ dom dp
                                  /\ Boid.unique_id b ∈ dom dv)
                        (RandomActivation.agents (schedule odd_model))).
  { rewrite D1, D2. simpl. repeat constructor; simpl; set_solver. }
  assert (H7 : 7 ∉ dom dp) by (rewrite D1; set_solver).
  split; [reflexivity |]. split.
  { exists dp, dv. rewrite Hv. simpl. auto. }
  exact (draw_succesive_missing_agent odd_model_grown odd_view "t=000" dp dv
           (RandomActivation.agents (schedule odd_model))
           [] (Boid.mk 7 (Some 5, Some 5)%Q 1 (1, 0)%Q 10 2 "susceptible" 0 0.1
                       0.3 0.025 0.25 0.04)
           eq_refl ltac:(rewrite Hv; reflexivity) ltac:(rewrite Hv; reflexivity)
           eq_refl Hpre H7).
Defined.

(** ** Drawing along a run *)

Lemma kept_ids (l l' : list Boid.t) :
  Forall2 kept l l' -> map Boid.unique_id l' = map Boid.unique_id l.
Proof.
  induction 1 as [| a b l l' (Hid & _) _ IH]; simpl; [reflexivity |].
  rewrite Hid, IH. reflexivity.
Qed.

(** X14: the usual cycle never raises: the model is built, drawn with
    [draw_initial], stepped any number of times and redrawn with
    [draw_succesive]; the redraw returns, shows the number of steps in its
    title and keeps one scatter and one circle per agent. *)
Theorem draw_along_a_run
    (fly : ContinuousSpace.t -> Boid.t -> list Boid.t -> Pos * Vec)
    (recovery_rate : Q) (p : Params) (g : Random.t) (np : np_random.t)
    (n : nat) :
  exists m0 np' v m dp dv,
    init p g np = Ok (m0, np')
    /\ draw_initial m0 View.blank = Drawn v
    /\ run fly recovery_rate n m0 = Ok m
    /\ draw_succesive m v
       = Drawn (View.mk (Some ("t=" ++ format_03d (Z.of_nat n))%string)
                        (Some dp) (Some dv)
                        (Some (0%Q, width p)) (Some (0%Q, height p))
                        (Some "equal"))
    /\ dom dp = list_to_set (agent_ids m)
    /\ dom dv = list_to_set (agent_ids m)
    /\ size dp = Z.to_nat (Z.max (population p) 5).
Proof.
  destruct (init_spec p g np)
    as (m0 & np' & bs1 & bs2 & Hi & Ha & _ & _ & Hs & H1 & H2 & _).
  destruct (init_sound p g np) as (m0' & np'' & Hi' & Hs0).
  rewrite Hi in Hi'. injection Hi' as <- <-.
  destruct (run_sound fly recovery_rate n 0 m0 Hs0) as (m & Hrun & Hsm).
  rewrite Nat.add_0_r in Hsm.
  pose proof Hs0 as (Hk0 & _ & _ & hs & hi & hr & hd & Hh & _).
  destruct (run_kept fly recovery_rate n m0 _ _ _ _ Hh) as (m' & Hrun' & Hkept).
  rewrite Hrun in Hrun'. injection Hrun' as <-.
  destruct Hsm as (Hk & Ht & _).
  assert (Hids0 : agent_ids m0
                  = range0 (population p - 5)
                    ++ range (population p - 5) (population p)).
  { unfold agent_ids. rewrite Hs. simpl. rewrite map_app.
    rewrite (created_ids _ _ _ _ _ H1), (created_ids _ _ _ _ _ H2). reflexivity. }
  assert (Hnd0 : NoDup (agent_ids m0)).
  { rewrite Hids0. apply NoDup_app. split; [apply NoDup_range |].
    split; [| apply NoDup_range].
    intros i Hi1 Hi2. unfold range0 in Hi1.
    apply elem_of_range in Hi1. apply elem_of_range in Hi2. lia. }
  assert (Hids : agent_ids m = agent_ids m0)
    by (unfold agent_ids; exact (kept_ids _ _ Hkept)).
  pose proof (draw_initial_outcome m0 View.blank) as Hout.
  destruct (draw_initial m0 View.blank) as [v | e] eqn:Hdraw.
  2:{ destruct Hout as (_ & a & l & Hl & Hna). exfalso. apply Hna.
      rewrite Hl in Hk0. apply Forall_cons in Hk0 as [Hka _]. exact Hka. }
  clear Hout.
  assert (Hnd : NoDup (agent_ids m)) by (rewrite Hids; exact Hnd0).
  destruct (draw_succesive_follows m0 m View.blank v Hdraw Hids Hnd Hk)
    as (dp & dv & Hre & D1 & D2 & _).
  destruct (draw_initial_inv _ _ _ Hdraw) as (c0 & dp0 & dv0 & _ & Hv).
  exists m0, np', v, m, dp, dv.
  split; [exact Hi |]. split; [exact Hdraw |]. split; [exact Hrun |].
  split.
  { rewrite Hre. unfold title_of. rewrite Ht, Hv, Ha. reflexivity. }
  rewrite Hids. split; [exact D1 |]. split; [exact D2 |].
  rewrite <- size_dom, D1, size_list_to_set by exact Hnd0.
  rewrite Hids0, length_app. unfold range0. rewrite !length_range. lia.
Qed.

(** * The scheduler pass, the constructor's two generators, and what the
      constructor accepts *)

(** ** One pass activates every agent once *)

Lemma lookup_key_Some (k : Z) (l : list Boid.t) :
  k ∈ map Boid.unique_id l ->
  exists b, lookup_key k l = Some b /\ Boid.unique_id b = k.
Proof.
  unfold lookup_key. induction l as [| a l IH]; simpl; intros H.
  - inversion H.
  - destruct (Boid.unique_id a =? k) eqn:E.
    + exists a. split; [reflexivity | apply Z.eqb_eq; exact E].
    + apply elem_of_cons in H as [H | H].
      * apply Z.eqb_neq in E. congruence.
      * exact (IH H).
Qed.

Lemma store_key_ids (k : Z) (b' : Boid.t) (l : list Boid.t) :
  Boid.unique_id b' = k ->
  map Boid.unique_id (store_key k b' l) = map Boid.unique_id l.
Proof.
  intros Hb. induction l as [| a l IH]; simpl; [reflexivity |].
  destruct (Boid.unique_id a =? k) eqn:E; simpl.
  - apply Z.eqb_eq in E. congruence.
  - rewrite IH. reflexivity.
Qed.

Section Pass.

Variable fly : ContinuousSpace.t -> Boid.t -> list Boid.t -> Pos * Vec.
Variable recovery_rate : Q.

(** The loop over the shuffled keys is a chain of activations, none of
    them skipped, as long as every key is registered. *)
Lemma fold_activations (sp : ContinuousSpace.t) (keys : list Z) :
  forall (l : list Boid.t) (g : Random.t),
    (forall k, k ∈ keys -> k ∈ map Boid.unique_id l) ->
    activations fly recovery_rate sp keys (l, g)
      (fold_left (activate fly recovery_rate sp) keys (l, g)).
Proof.
  induction keys as [| k keys IH]; intros l g Hin; cbn [fold_left].
  - constructor.
  - destruct (lookup_key_Some k l (Hin k ltac:(left))) as (b & Hb & Hid).
    destruct (Boid_step fly recovery_rate sp b l g) as [b' g'] eqn:Hstep.
    assert (Hact : activate fly recovery_rate sp (l, g) k
                   = (store_key k b' l, g')).
    { unfold activate. rewrite Hb, Hstep. reflexivity. }
    rewrite Hact.
    assert (Hid' : Boid.unique_id b' = k).
    { destruct (Boid_step_kept fly recovery_rate sp b l g) as (H & _).
      rewrite Hstep in H. simpl in H. congruence. }
    econstructor; [exact Hb | exact Hstep |].
    apply IH. intros j Hj. rewrite (store_key_ids _ _ _ Hid').
    apply Hin. right. exact Hj.
Qed.

(** The parts of a scheduler pass. *)
Lemma schedule_step_pass (self : BoidFlockers) :
  exists keys g1,
    Random.shuffle (map Boid.unique_id (RandomActivation.agents (schedule self)))
                   (random self) = (keys, g1)
    /\ fold_left (activate fly recovery_rate (space self)) keys
                 (RandomActivation.agents (schedule self), g1)
       = (RandomActivation.agents
            (schedule (schedule_step fly recovery_rate self)),
          random (schedule_step fly recovery_rate self)).
Proof.
  unfold schedule_step.
  destruct (Random.shuffle _ (random self)) as [keys g1].
  exists keys, g1. split; [reflexivity |].
  destruct (fold_left _ keys _) as [l g2]. reflexivity.
Qed.

(** C6: the call of [step] that follows [n] earlier ones runs one pass of
    the scheduler and then appends one tally.  The pass shuffles the ids
    with the model's generator and activates every agent exactly once, in
    the shuffled order (a permutation of the distinct ids, each found and
    stepped by [Boid_step]); its counters go from [n] to [n + 1].  The
    entry appended to each of the four series is the number of agents
    that carry the tag of the series after the pass, the four sum to the
    number of agents, and the [n + 1] entries recorded so far stay as they
    were, in front of the new one. *)
Theorem step_appends_one_tally (p : Params) (g : Random.t)
    (np : np_random.t) (n : nat) :
  exists m0 np' m m' hs hi hr hd s i r d keys g1,
    init p g np = Ok (m0, np')
    /\ run fly recovery_rate n m0 = Ok m
    /\ step fly recovery_rate m = Ok m'
    /\ get_status_num (schedule_step fly recovery_rate m) = Ok m'
    /\ run fly recovery_rate (S n) m0 = Ok m'
    /\ RandomActivation.time (schedule m) = Z.of_nat n
    /\ RandomActivation.time (schedule m') = Z.of_nat n + 1
    /\ RandomActivation.steps (schedule m') = Z.of_nat n + 1
    /\ history m hs hi hr hd
    /\ level (S n) hs hi hr hd
    /\ count_agents (RandomActivation.agents (schedule m')) = (s, i, r, d)
    /\ history m' (hs ++ [s]) (hi ++ [i]) (hr ++ [r]) (hd ++ [d])
    /\ level (S (S n)) (hs ++ [s]) (hi ++ [i]) (hr ++ [r]) (hd ++ [d])
    /\ Random.shuffle (map Boid.unique_id (RandomActivation.agents (schedule m)))
                      (random m) = (keys, g1)
    /\ keys ≡ₚ map Boid.unique_id (RandomActivation.agents (schedule m))
    /\ NoDup keys
    /\ activations fly recovery_rate (space m) keys
         (RandomActivation.agents (schedule m), g1)
         (RandomActivation.agents (schedule m'), random m')
    /\ s = count_status "susceptible" (RandomActivation.agents (schedule m'))
    /\ i = count_status "infected" (RandomActivation.agents (schedule m'))
    /\ r = count_status "recovered" (RandomActivation.agents (schedule m'))
    /\ d = count_status "removed" (RandomActivation.agents (schedule m'))
    /\ s + i + r + d
       = Z.of_nat (length (RandomActivation.agents (schedule m')))
    /\ length (RandomActivation.agents (schedule m'))
       = length (RandomActivation.agents (schedule m)).
Proof.
  destruct (init_spec p g np)
    as (m0 & np' & bs1 & bs2 & Hi & _ & _ & _ & Hsch0 & C1 & C2 & _).
  destruct (init_sound p g np) as (m0' & np'' & Hi' & Hs0).
  rewrite Hi in Hi'. injection Hi' as <- <-.
  destruct (run_sound fly recovery_rate n 0 m0 Hs0) as (m & Hrun & Hs).
  rewrite Nat.add_0_r in Hs.
  pose proof Hs0 as (_ & _ & _ & hs0 & hi0 & hr0 & hd0 & Hh0 & _).
  destruct (run_kept fly recovery_rate n m0 _ _ _ _ Hh0) as (m1 & Hrun1 & Hkept).
  rewrite Hrun in Hrun1. injection Hrun1 as <-.
  destruct (step_sound fly recovery_rate n m Hs) as (m' & Hstep & Hs').
  destruct Hs as (_ & Ht & Hst & hs & hi & hr & hd & Hh & Hl & _).
  destruct (step_spec fly recovery_rate m hs hi hr hd Hh)
    as (m2 & Hstep2 & Hkept' & Ht' & Hst' & Hh').
  rewrite Hstep in Hstep2. injection Hstep2 as <-.
  destruct Hs' as (Hk' & _).
  pose proof (count_agents_status (RandomActivation.agents (schedule m'))) as Hc.
  pose proof (count_agents_known _ Hk') as Htot.
  destruct (count_agents (RandomActivation.agents (schedule m')))
    as [[[s i] r] d] eqn:Ecount.
  injection Hc as Es Ei Er Ed.
  assert (Hnd : NoDup (map Boid.unique_id (RandomActivation.agents (schedule m)))).
  { rewrite (kept_ids _ _ Hkept), Hsch0. simpl. rewrite map_app.
    rewrite (created_ids _ _ _ _ _ C1), (created_ids _ _ _ _ _ C2).
    apply NoDup_app. split; [apply NoDup_range |]. split; [| apply NoDup_range].
    intros j Hj1 Hj2. unfold range0 in Hj1.
    apply elem_of_range in Hj1. apply elem_of_range in Hj2. lia. }
  destruct (schedule_step_pass m) as (keys & g1 & Hshuffle & Hfold).
  assert (Hperm : keys ≡ₚ map Boid.unique_id (RandomActivation.agents (schedule m))).
  { pose proof (shuffle_Permutation
                  (map Boid.unique_id (RandomActivation.agents (schedule m)))
                  (random m)) as Hp.
    rewrite Hshuffle in Hp. exact Hp. }
  destruct (get_status_num_frame _ _ Hstep) as (_ & Hsch & _ & Hrand & _).
  exists m0, np', m, m', hs, hi, hr, hd, s, i, r, d, keys, g1.
  split; [exact Hi |]. split; [exact Hrun |]. split; [exact Hstep |].
  split; [exact Hstep |].
  split; [rewrite run_snoc, Hrun; exact Hstep |].
  split; [exact Ht |]. split; [lia |]. split; [lia |].
  split; [exact Hh |]. split; [exact Hl |]. split; [exact Ecount |].
  split; [exact Hh' |]. split; [apply level_snoc; exact Hl |].
  split; [exact Hshuffle |]. split; [exact Hperm |].
  split; [rewrite Hperm; exact Hnd |].
  split.
  { rewrite Hsch, Hrand, <- Hfold. apply fold_activations.
    intros k Hk. rewrite <- Hperm. exact Hk. }
  split; [exact Es |]. split; [exact Ei |]. split; [exact Er |].
  split; [exact Ed |].
  split; [exact Htot |].
  symmetry. exact (Forall2_length _ _ _ Hkept').
Qed.

End Pass.

(** ** The two generators of the constructor *)

Lemma make_boid_velocity (st : string) (i : Z) (self self' : BoidFlockers)
    (np np' : np_random.t) :
  make_boid st i (self, np) = Ok (self', np') ->
  exists b,
    RandomActivation.agents (schedule self')
    = RandomActivation.agents (schedule self) ++ [b]
    /\ Boid.velocity b = velocity_at np 0.
Proof.
  unfold make_boid. cbn [Random.random fst snd].
  unfold np_random.random2, np_random.random_sample.
  unfold ContinuousSpace.place_agent.
  destruct (ContinuousSpace.torus_adj _ _) as [q | e]; cbn [bind];
    [| discriminate].
  unfold RandomActivation.add.
  destruct (RandomActivation.has_key _ _); cbn [bind]; [discriminate |].
  intros [= <- <-]. eexists. split; [reflexivity |].
  unfold velocity_at, peek, np_random.word, np_random.next. simpl.
  rewrite Nat.add_0_r, Nat.add_1_r. reflexivity.
Qed.

Lemma velocity_at_advance (k j : nat) (np : np_random.t) :
  velocity_at (np_advance (2 * k) np) j = velocity_at np (k + j).
Proof.
  unfold velocity_at, peek, np_advance.
  cbn [np_random.cursor np_random.draws].
  replace (np_random.cursor np + 2 * k + 2 * j)%nat
    with (np_random.cursor np + 2 * (k + j))%nat by lia.
  replace (np_random.cursor np + 2 * k + (2 * j + 1))%nat
    with (np_random.cursor np + (2 * (k + j) + 1))%nat by lia.
  reflexivity.
Qed.

Lemma for_each_make_boid_velocities (st : string) (ids : list Z) :
  forall (self self' : BoidFlockers) (np np' : np_random.t),
    for_each (make_boid st) ids (self, np) = Ok (self', np') ->
    map Boid.velocity (RandomActivation.agents (schedule self'))
    = map Boid.velocity (RandomActivation.agents (schedule self))
      ++ map (velocity_at np) (seq 0 (length ids)).
Proof.
  induction ids as [| i ids IH]; intros self self' np np' H; cbn [for_each] in H.
  - injection H as <- <-. simpl. rewrite app_nil_r. reflexivity.
  - destruct (make_boid st i (self, np)) as [[m1 n1] | e] eqn:E; cbn [bind] in H;
      [| discriminate].
    destruct (make_boid_velocity _ _ _ _ _ _ E) as (b & Hb & Hv).
    destruct (for_each_make_boid_draws st [i] self m1 np n1) as [_ Hn].
    { cbn [for_each]. rewrite E. reflexivity. }
    rewrite (IH _ _ _ _ H), Hb, map_app, <- app_assoc. f_equal.
    cbn [length seq map app]. rewrite Hv. f_equal.
    rewrite <- seq_shift, map_map. apply map_ext. intros j.
    rewrite Hn. change (2 * length [i])%nat with (2 * 1)%nat.
    rewrite velocity_at_advance. reflexivity.
Qed.

(** The velocities a returned constructor call has given the agents. *)
Lemma init_velocities (p : Params) (g : Random.t) (np np' : np_random.t)
    (m : BoidFlockers) :
  init p g np = Ok (m, np') ->
  map Boid.velocity (RandomActivation.agents (schedule m))
  = map (velocity_at np)
        (seq 0 (length (RandomActivation.agents (schedule m)))).
Proof.
  intros Hi.
  destruct (init_stages _ _ _ _ _ Hi) as (m1 & n1 & m2 & m3 & E1 & E2 & E3 & ->).
  destruct (get_status_num_frame _ _ E3) as (_ & S3 & _).
  pose proof (for_each_make_boid_velocities _ _ _ _ _ _ E1) as V1.
  pose proof (for_each_make_boid_velocities _ _ _ _ _ _ E2) as V2.
  destruct (for_each_make_boid_draws _ _ _ _ _ _ E1) as [_ N1].
  simpl in V1. rewrite V1, N1 in V2.
  assert (V : map Boid.velocity (RandomActivation.agents (schedule m2))
              = map (velocity_at np)
                    (seq 0 (length (range0 (population p - 5))
                            + length (range (population p - 5) (population p))))).
  { rewrite V2, seq_app, map_app. f_equal. cbn [Nat.add].
    replace (seq (length (range0 (population p - 5)))
                 (length (range (population p - 5) (population p))))
      with (Nat.add (length (range0 (population p - 5)))
              <$> seq 0 (length (range (population p - 5) (population p))))
      by (rewrite fmap_add_seq; f_equal; lia).
    rewrite map_map. apply map_ext. intros j. apply velocity_at_advance. }
  simpl. rewrite S3.
  assert (L : length (RandomActivation.agents (schedule m2))
              = (length (range0 (population p - 5))
                 + length (range (population p - 5) (population p)))%nat).
  { rewrite <- (length_map Boid.velocity), V, length_map, length_seq.
    reflexivity. }
  rewrite L. exact V.
Qed.

(** C4, amended: two constructions with the same parameters that start
    from the same state of the model's generator give the agents the same
    ids, positions and statuses and record the same first tally, whatever
    numpy's global generator holds; the initial velocities are computed
    from numpy's global generator alone, agent [j] from its samples [2 j]
    and [2 j + 1]. *)
Theorem construction_uses_two_generators (p : Params) (g : Random.t)
    (n1 n2 : np_random.t) :
  exists m1 a1 m2 a2,
    init p g n1 = Ok (m1, a1) /\ init p g n2 = Ok (m2, a2)
    /\ map Boid.unique_id (RandomActivation.agents (schedule m1))
       = map Boid.unique_id (RandomActivation.agents (schedule m2))
    /\ map Boid.pos (RandomActivation.agents (schedule m1))
       = map Boid.pos (RandomActivation.agents (schedule m2))
    /\ map Boid.status (RandomActivation.agents (schedule m1))
       = map Boid.status (RandomActivation.agents (schedule m2))
    /\ status_num m1 = status_num m2
    /\ random m1 = random m2
    /\ map Boid.velocity (RandomActivation.agents (schedule m1))
       = map (velocity_at n1)
             (seq 0 (length (RandomActivation.agents (schedule m1))))
    /\ map Boid.velocity (RandomActivation.agents (schedule m2))
       = map (velocity_at n2)
             (seq 0 (length (RandomActivation.agents (schedule m2)))).
Proof.
  destruct (init_seed_determines_placement p g n1 n2)
    as (m1 & a1 & m2 & a2 & H1 & H2 & Hid & Hpos & Hst & Hd & Hr).
  exists m1, a1, m2, a2.
  repeat (split; [assumption |]).
  split; [exact (init_velocities _ _ _ _ _ H1) |
          exact (init_velocities _ _ _ _ _ H2)].
Qed.

(** ** What the constructor accepts *)




